(** * GeoPlot: from a state trajectory to GeoJSON and a Cesium page

    A shallow embedding of [src/geoplot.py]: the helper [read_var], the
    class [GeoPlot] with its constructor and its method [render], and the
    page template [geoplot_template] that [render] fills in.

    Python values are modelled as they occur in the program: integers as
    [Z], strings as [string], lists as [list], the dictionaries that
    [render] builds as association lists in insertion order, exceptions as
    the [Raise] branch of [result], and the two files that [render] writes
    as an explicit file store that is threaded through the calls.

    What [render] imports is a parameter of the model (the class
    [Externals]): the states and [get_by_path], the type [np.array] gives
    to the scalars of an array, the text of a timestamp and of a JSON
    document, and whether a file can be opened.  [np.array] itself is
    modelled: it raises [ValueError] on ragged data.  A timestamp and a
    timedelta are numbers of nanoseconds that must fit 64 bits, and
    building one that does not fit raises; [step_time] is a Python integer
    or a float, and the rounding of a float number of seconds is left to
    [Externals].  The wall-clock time is an argument of [render]: it
    stands for what [pd.Timestamp.utcnow()] returns, which is a time
    pandas can hold.  [json.dump] can raise after it has written a part of
    its text.  [string.Template] is modelled for the placeholders it
    documents.  Of the script in the page, the model has the string
    literal that holds the visualization type, the test on it, and
    [interpolateColor], with the arithmetic of the script left
    abstract. *)

From Stdlib Require Import ZArith String Ascii Bool Lia List DecimalString.
Import ListNotations.

Local Open Scope string_scope.
Local Open Scope list_scope.
Local Open Scope Z_scope.

Set Warnings "-register-all".

(** ** Exceptions and results *)

(** The exceptions the interpreter or a library can raise in [render]. *)
Inductive exn : Type :=
| IndexError
| KeyError
| TypeError
| ValueError
| OSError
| OutOfBoundsTimedelta
| OutOfBoundsDatetime.

Inductive result (A : Type) : Type :=
| Ok (a : A)
| Raise (e : exn).

Arguments Ok {A} a.
Arguments Raise {A} e.

Definition bind {A B : Type} (r : result A) (k : A -> result B) : result B :=
  match r with
  | Ok a => k a
  | Raise e => Raise e
  end.

Notation "x <- r ;; k" := (bind r (fun x => k))
  (at level 61, r at next level, right associativity).

Definition fails {A : Type} (r : result A) : Prop := exists e, r = Raise e.

(** ** Python sequences *)

(** [range(lo, hi)], empty when [hi <= lo]. *)
Definition range (lo hi : Z) : list Z :=
  map (fun k => lo + Z.of_nat k) (seq 0 (Z.to_nat (hi - lo))).

(** [l[i]] on a list: a negative index counts from the end, an index out of
    range raises [IndexError]. *)
Definition getitem {A : Type} (l : list A) (i : Z) : result A :=
  let n := Z.of_nat (length l) in
  let j := if i <? 0 then i + n else i in
  if (j <? 0) || (n <=? j) then Raise IndexError
  else match nth_error l (Z.to_nat j) with
       | Some x => Ok x
       | None => Raise IndexError
       end.

(** [zip(xs, ys)]: stops at the end of the shorter argument. *)
Fixpoint zip {A B : Type} (xs : list A) (ys : list B) : list (A * B) :=
  match xs, ys with
  | x :: xs', y :: ys' => (x, y) :: zip xs' ys'
  | _, _ => []
  end.

(** [enumerate(xs)], counting from [start]. *)
Fixpoint enumerate_from {A : Type} (start : Z) (xs : list A) : list (Z * A) :=
  match xs with
  | [] => []
  | x :: xs' => (start, x) :: enumerate_from (start + 1) xs'
  end.

Definition enumerate {A : Type} (xs : list A) : list (Z * A) :=
  enumerate_from 0 xs.

(** A loop body run over a list, left to right, stopping at the first
    exception: the list comprehension of a body that can raise. *)
Fixpoint for_each {A B : Type} (body : A -> result B) (xs : list A)
  : result (list B) :=
  match xs with
  | [] => Ok []
  | x :: xs' =>
      y <- body x ;;
      ys <- for_each body xs' ;;
      Ok (y :: ys)
  end.

(** ** Arrays and Python objects *)

(** What [np.array(...)] holds: a scalar (a 0-d array) or a sequence of
    sub-arrays.  [A] is the type of the scalars, which [render] only moves
    around. *)
Inductive ndarray (A : Type) : Type :=
| Scalar (x : A)
| Array (items : list (ndarray A)).

Arguments Scalar {A} x.
Arguments Array {A} items.

(** The Python objects [render] builds: numbers, strings, lists, and
    dictionaries with string keys, in insertion order. *)
Inductive pyobj (A : Type) : Type :=
| PyNum (x : A)
| PyStr (s : string)
| PyList (items : list (pyobj A))
| PyDict (entries : list (string * pyobj A)).

Arguments PyNum {A} x.
Arguments PyStr {A} s.
Arguments PyList {A} items.
Arguments PyDict {A} entries.

(** [a.tolist()]: the array as nested lists (a 0-d array gives its scalar). *)
Fixpoint tolist {A : Type} (a : ndarray A) : pyobj A :=
  match a with
  | Scalar x => PyNum x
  | Array items => PyList (map tolist items)
  end.

(** [a.flatten().tolist()]: the scalars of the array in row-major order. *)
Fixpoint flatten {A : Type} (a : ndarray A) : list A :=
  match a with
  | Scalar x => [x]
  | Array items => flat_map flatten items
  end.

(** The shape of nested data, when it has one: a scalar has the empty
    shape, and a sequence has a shape when its items all have the same
    shape.  Data without a shape is ragged. *)
Fixpoint shape_eqb (s t : list nat) : bool :=
  match s, t with
  | [], [] => true
  | m :: s', n :: t' => Nat.eqb m n && shape_eqb s' t'
  | _, _ => false
  end.

Definition common_shape (count : nat) (shapes : list (option (list nat)))
  : option (list nat) :=
  match shapes with
  | [] => Some [0%nat]
  | None :: _ => None
  | Some s :: rest =>
      if forallb (fun o => match o with
                           | Some t => shape_eqb s t
                           | None => false
                           end) rest
      then Some (count :: s)
      else None
  end.

Fixpoint shape {A : Type} (a : ndarray A) : option (list nat) :=
  match a with
  | Scalar _ => Some []
  | Array items => common_shape (length items) (map shape items)
  end.

(** The same data with every scalar converted by [cast]. *)
Fixpoint astype {A : Type} (cast : A -> A) (a : ndarray A) : ndarray A :=
  match a with
  | Scalar x => Scalar (cast x)
  | Array items => Array (map (astype cast) items)
  end.

(** [iter(o)] as a [for] loop or [enumerate] needs it: a number is not
    iterable, a string gives its characters, a dictionary its keys. *)
Definition iterate {A : Type} (o : pyobj A) : result (list (pyobj A)) :=
  match o with
  | PyNum _ => Raise TypeError
  | PyStr s => Ok (map (fun c => PyStr (String c EmptyString)) (list_ascii_of_string s))
  | PyList items => Ok items
  | PyDict entries => Ok (map (fun kv => PyStr (fst kv)) entries)
  end.

(** [o[i]] with an integer [i]: a number is not subscriptable, a dictionary
    with string keys has no integer key.  [render] subscripts the items of
    [coords] only, which are numbers or lists. *)
Definition subscript {A : Type} (o : pyobj A) (i : Z) : result (pyobj A) :=
  match o with
  | PyNum _ => Raise TypeError
  | PyStr s =>
      c <- getitem (list_ascii_of_string s) i ;;
      Ok (PyStr (String c EmptyString))
  | PyList items => getitem items i
  | PyDict _ => Raise KeyError
  end.

(** Dictionary lookup by key, [None] when the key is absent. *)
Fixpoint lookup {B : Type} (key : string) (entries : list (string * B))
  : option B :=
  match entries with
  | [] => None
  | (k, v) :: rest => if String.eqb k key then Some v else lookup key rest
  end.

Definition keys {B : Type} (entries : list (string * B)) : list string :=
  map fst entries.

(** ** Strings *)

(** [re.split("/", var)]: the pieces between the slashes, empty pieces
    kept. *)
Fixpoint split_slash (var : string) : list string :=
  match var with
  | EmptyString => [EmptyString]
  | String c rest =>
      if Ascii.eqb c "/"%char then EmptyString :: split_slash rest
      else match split_slash rest with
           | piece :: pieces => String c piece :: pieces
           | [] => [String c EmptyString]
           end
  end.

(** ** What [render] takes from outside this file *)

(** A [pd.Timestamp] and a [pd.Timedelta]: a number of nanoseconds (since
    the epoch, for a timestamp), held in 64 bits.  pandas keeps the least
    64-bit number for [NaT] and raises where a result leaves the range. *)
Definition Timestamp : Type := Z.

Definition ns_max : Z := 9223372036854775807.

Definition representable (ns : Z) : bool :=
  (- ns_max <=? ns) && (ns <=? ns_max).

(** The value of [step_time]: a Python integer, or a finite Python float
    given as [mantissa * 2 ^ exponent].  (The floats that are not finite
    are not modelled.) *)
Inductive seconds : Type :=
| Whole (z : Z)
| Fractional (mantissa exponent : Z).

(** [start + delta] for a timestamp and the nanoseconds of a timedelta:
    pandas raises [OutOfBoundsDatetime] when the sum cannot be held.  (The
    least 64-bit number counts as out of range here; no clock reading
    after 1970 plus a timedelta gives it.) *)
Definition Timestamp_add (start : Timestamp) (delta : Z) : result Timestamp :=
  if representable (start + delta) then Ok (start + delta)
  else Raise OutOfBoundsDatetime.

(** The imported functions whose code is not part of this file, and the
    data they work on:
    - [State], one snapshot of the simulation, and [get_by_path] of
      [agent_torch.core.helpers], which resolves a list of keys in it and
      gives array-like data (or raises);
    - [scalar], the scalars held by the data, and [common_type], the
      conversion [np.array] applies to each of them: [common_type xs x] is
      [x] as an element of the array built from the scalars [xs], which
      all get one common type;
    - [Timedelta_of_float], the nanoseconds of
      [pd.Timedelta(seconds=i * x)] for an integer [i] and the float
      [x = mantissa * 2 ^ exponent], or the exception it raises (the
      floating-point arithmetic is not modelled);
    - [isoformat], the method of [pd.Timestamp];
    - [json_dumps], which is [json.dumps(obj)];
    - [json_dump_indent], the text that
      [json.dump(obj, f, ensure_ascii=False, indent=2)] writes to the
      file, together with the exception it raises, if any, at a value it
      cannot print (the text is then what was written before);
    - [writable], whether [open(path, "w")] succeeds. *)
Class Externals : Type := {
  State : Type;
  scalar : Type;
  get_by_path : State -> list string -> result (ndarray scalar);
  common_type : list scalar -> scalar -> scalar;
  Timedelta_of_float : Z -> Z -> Z -> result Z;
  isoformat : Timestamp -> string;
  json_dumps : pyobj scalar -> string;
  json_dump_indent : pyobj scalar -> string * option exn;
  writable : string -> bool
}.

(** ** Configuration *)

Record simulation_metadata : Type := {
  name : string;
  num_episodes : Z;
  num_steps_per_episode : Z
}.

Record Config : Type := {
  metadata : simulation_metadata
}.

Record Options : Type := {
  opt_cesium_token : string;
  opt_step_time : seconds;
  opt_coordinates : string;
  opt_feature : string;
  opt_visualization_type : string
}.

Record GeoPlot : Type := {
  config : Config;
  cesium_token : string;
  step_time : seconds;
  entity_position : string;
  entity_property : string;
  visualization_type : string
}.

(** [GeoPlot.__init__] *)
Definition init (config : Config) (options : Options) : GeoPlot :=
  {| config := config;
     cesium_token := opt_cesium_token options;
     step_time := opt_step_time options;
     entity_position := opt_coordinates options;
     entity_property := opt_feature options;
     visualization_type := opt_visualization_type options |}.

(** ** [read_var] and the stages of [render] *)

Section Render.

Context {ext : Externals}.

Definition Episode : Type := list State.
Definition StateTrajectory : Type := list Episode.

(** [episode[-1]] *)
Definition final_state_of (episode : Episode) : result State :=
  getitem episode (-1).

Definition read_var (state : State) (var : string) : result (ndarray scalar) :=
  get_by_path state (split_slash var).

(** [np.array(x)]: ragged data raises [ValueError]; otherwise the array
    has the data of [x], each scalar converted to the common type of all
    of them. *)
Definition np_array (x : ndarray scalar) : result (ndarray scalar) :=
  match shape x with
  | None => Raise ValueError
  | Some _ => Ok (astype (common_type (flatten x)) x)
  end.

(** [np.array(read_var(state, var))], lines 189 and 191. *)
Definition read_array (state : State) (var : string)
  : result (ndarray scalar) :=
  data <- read_var state var ;;
  np_array data.

(** One turn of the first loop of [render]: [coords] is assigned, [values]
    is appended to. *)
Definition extract_step (self : GeoPlot) (state_trajectory : StateTrajectory)
    (acc : pyobj scalar * list (list scalar)) (i : Z)
  : result (pyobj scalar * list (list scalar)) :=
  let '(_, values) := acc in
  episode <- getitem state_trajectory i ;;
  final_state <- final_state_of episode ;;
  position <- read_array final_state (entity_position self) ;;
  let coords := tolist position in
  property <- read_array final_state (entity_property self) ;;
  Ok (coords, values ++ [flatten property]).

Fixpoint extract_loop (self : GeoPlot) (state_trajectory : StateTrajectory)
    (indices : list Z) (acc : pyobj scalar * list (list scalar))
  : result (pyobj scalar * list (list scalar)) :=
  match indices with
  | [] => Ok acc
  | i :: rest =>
      acc' <- extract_step self state_trajectory acc i ;;
      extract_loop self state_trajectory rest acc'
  end.

(** Lines 182 and 187-192: [coords, values = [], []] and the loop over
    [range(0, len(state_trajectory) - 1)]. *)
Definition render_extract (self : GeoPlot) (state_trajectory : StateTrajectory)
  : result (pyobj scalar * list (list scalar)) :=
  extract_loop self state_trajectory
    (range 0 (Z.of_nat (length state_trajectory) - 1))
    (PyList [], []).

(** The extraction in the words of the specification: over the last
    states of the visited episodes, in order, [coords] is replaced by the
    coordinates of each and its flattened values are appended. *)
Fixpoint extract_over (self : GeoPlot) (finals : list (result State))
    (acc : pyobj scalar * list (list scalar))
  : result (pyobj scalar * list (list scalar)) :=
  match finals with
  | [] => Ok acc
  | final :: rest =>
      final_state <- final ;;
      position <- read_array final_state (entity_position self) ;;
      property <- read_array final_state (entity_property self) ;;
      extract_over self rest
        (tolist position, snd acc ++ [flatten property])
  end.

(** [pd.Timedelta(seconds=i * step_time)] in nanoseconds: for an integer
    [step_time] the product, a Python integer, times [10 ^ 9]; pandas
    raises [OutOfBoundsTimedelta] when that cannot be held. *)
Definition Timedelta_seconds (i : Z) (step_time : seconds) : result Z :=
  match step_time with
  | Whole z =>
      if representable (i * z * 1000000000) then Ok (i * z * 1000000000)
      else Raise OutOfBoundsTimedelta
  | Fractional mantissa exponent => Timedelta_of_float i mantissa exponent
  end.

(** Lines 197-203: the list of timestamps, or the exception of the first
    one that cannot be built. *)
Definition render_timestamps (self : GeoPlot) (start_time : Timestamp)
  : result (list Timestamp) :=
  for_each (fun i => delta <- Timedelta_seconds i (step_time self) ;;
                     Timestamp_add start_time delta)
           (range 0 (num_episodes (metadata (config self)) *
                     num_steps_per_episode (metadata (config self)))).

(** Lines 211-221: one Feature.  The items of the dictionary are evaluated
    in the order they are written: [coord[1]], [coord[0]], then
    [value_list[i]]. *)
Definition feature (coord : pyobj scalar) (i : Z) (time : Timestamp)
    (value_list : list scalar) : result (pyobj scalar) :=
  lon <- subscript coord 1 ;;
  lat <- subscript coord 0 ;;
  value <- getitem value_list i ;;
  Ok (PyDict
        [("type", PyStr "Feature");
         ("geometry",
          PyDict [("type", PyStr "Point");
                  ("coordinates", PyList [lon; lat])]);
         ("properties",
          PyDict [("value", PyNum value);
                  ("time", PyStr (isoformat time))])]).

(** Lines 209-222: the FeatureCollection of entity [i]. *)
Definition feature_collection (timestamps : list Timestamp)
    (values : list (list scalar)) (entity : Z * pyobj scalar)
  : result (pyobj scalar) :=
  let '(i, coord) := entity in
  features <- for_each (fun tv => feature coord i (fst tv) (snd tv))
                       (zip timestamps values) ;;
  Ok (PyDict [("type", PyStr "FeatureCollection");
              ("features", PyList features)]).

(** Lines 205-222: [geojsons]. *)
Definition render_features (coords : pyobj scalar)
    (timestamps : list Timestamp) (values : list (list scalar))
  : result (list (pyobj scalar)) :=
  entities <- iterate coords ;;
  for_each (feature_collection timestamps values) (enumerate entities).

(** Lines 182-222 together: the timestamps and [geojsons], from the
    trajectory and the time [pd.Timestamp.utcnow()] gives. *)
Definition render_geojsons (self : GeoPlot) (state_trajectory : StateTrajectory)
    (utcnow : Timestamp) : result (list Timestamp * list (pyobj scalar)) :=
  cv <- render_extract self state_trajectory ;;
  timestamps <- render_timestamps self utcnow ;;
  geojsons <- render_features (fst cv) timestamps (snd cv) ;;
  Ok (timestamps, geojsons).

End Render.

(** ** The page template *)

(** The double quote character, which the template uses in its HTML
    attributes. *)
Definition dq : string := String "034"%char EmptyString.

(** The text of [geoplot_template], from the line break after the opening
    quotes to the one before the closing quotes. *)
Definition geoplot_template : string :=
  ("
<!doctype html>
<html lang=" ++ dq ++ "en" ++ dq ++ ">
  <head>
    <meta charset=" ++ dq ++ "UTF-8" ++ dq ++ " />
    <meta name=" ++ dq ++ "viewport" ++ dq ++ " content=" ++ dq ++ "width=device-width, initial-scale=1.0" ++ dq ++ " />
    <title>Cesium Time-Series Heatmap Visualization</title>
    <script src=" ++ dq ++ "https://cesium.com/downloads/cesiumjs/releases/1.95/Build/Cesium/Cesium.js" ++ dq ++ "></script>
    <link href=" ++ dq ++ "https://cesium.com/downloads/cesiumjs/releases/1.95/Build/Cesium/Widgets/widgets.css" ++ dq ++ " rel=" ++ dq ++ "stylesheet" ++ dq ++ " />
    <style>#cesiumContainer { width: 100%; height: 100%; }</style>
  </head>
  <body>
    <div id=" ++ dq ++ "cesiumContainer" ++ dq ++ "></div>
    <script>
      Cesium.Ion.defaultAccessToken = '$accessToken';
      const viewer = new Cesium.Viewer('cesiumContainer');

      function interpolateColor(color1, color2, factor) {
        const result = new Cesium.Color();
        result.red = color1.red + factor * (color2.red - color1.red);
        result.green = color1.green + factor * (color2.green - color1.green);
        result.blue = color1.blue + factor * (color2.blue - color1.blue);
        result.alpha = '$visualType' == 'size' ? 0.2 : color1.alpha + factor * (color2.alpha - color1.alpha);
        return result;
      }

      function getColor(value, min, max) {
        const factor = (value - min) / (max - min);
        return interpolateColor(Cesium.Color.BLUE, Cesium.Color.RED, factor);
      }

      function getPixelSize(value, min, max) {
        const factor = (value - min) / (max - min);
        return 100 * (1 + factor);
      }

      function processTimeSeriesData(geoJsonData) {
        const timeSeriesMap = new Map();
        let minValue = Infinity;
        let maxValue = -Infinity;

        geoJsonData.features.forEach((feature) => {
          const id = feature.properties.id;
          const time = Cesium.JulianDate.fromIso8601(feature.properties.time);
          const value = feature.properties.value;
          const coordinates = feature.geometry.coordinates;

          if (!timeSeriesMap.has(id)) {
            timeSeriesMap.set(id, []);
          }
          timeSeriesMap.get(id).push({ time, value, coordinates });

          minValue = Math.min(minValue, value);
          maxValue = Math.max(maxValue, value);
        });

        return { timeSeriesMap, minValue, maxValue };
      }

      function createTimeSeriesEntities(timeSeriesData, startTime, stopTime) {
        const dataSource = new Cesium.CustomDataSource('AgentTorch Simulation');

        for (const [id, timeSeries] of timeSeriesData.timeSeriesMap) {
          const entity = new Cesium.Entity({
            id: id,
            availability: new Cesium.TimeIntervalCollection([
              new Cesium.TimeInterval({ start: startTime, stop: stopTime }),
            ]),
            position: new Cesium.SampledPositionProperty(),
            point: {
              pixelSize: '$visualType' == 'size' ? new Cesium.SampledProperty(Number) : 10,
              color: new Cesium.SampledProperty(Cesium.Color),
            },
            properties: {
              value: new Cesium.SampledProperty(Number),
            },
          });

          timeSeries.forEach(({ time, value, coordinates }) => {
            const position = Cesium.Cartesian3.fromDegrees(coordinates[0], coordinates[1]);
            entity.position.addSample(time, position);
            entity.properties.value.addSample(time, value);
            entity.point.color.addSample(time, getColor(value, timeSeriesData.minValue, timeSeriesData.maxValue));
            if ('$visualType' == 'size') {
              entity.point.pixelSize.addSample(time, getPixelSize(value, timeSeriesData.minValue, timeSeriesData.maxValue));
            }
          });

          dataSource.entities.add(entity);
        }

        return dataSource;
      }

      const geoJsons = $data;
      const start = Cesium.JulianDate.fromIso8601('$startTime');
      const stop = Cesium.JulianDate.fromIso8601('$stopTime');

      viewer.clock.startTime = start.clone();
      viewer.clock.stopTime = stop.clone();
      viewer.clock.currentTime = start.clone();
      viewer.clock.clockRange = Cesium.ClockRange.LOOP_STOP;
      viewer.clock.multiplier = 3600; // 1 hour per second

      viewer.timeline.zoomTo(start, stop);

      for (const geoJsonData of geoJsons) {
        const timeSeriesData = processTimeSeriesData(geoJsonData);
        const dataSource = createTimeSeriesEntities(timeSeriesData, start, stop);
        viewer.dataSources.add(dataSource);
        viewer.zoomTo(dataSource);
      }
    </script>
  </body>
</html>
")%string.

(** ** [string.Template] *)

(** The characters of a placeholder name: [[_a-z][_a-z0-9]*], letters of
    either case. *)
Definition is_id_start (c : ascii) : bool :=
  (Ascii.eqb c "_" || (Ascii.leb "a" c && Ascii.leb c "z")
   || (Ascii.leb "A" c && Ascii.leb c "Z"))%char.

Definition is_id_char (c : ascii) : bool :=
  (is_id_start c || (Ascii.leb "0" c && Ascii.leb c "9"))%char.

(** [mapping[name]] *)
Definition mapping_get (mapping : list (string * string)) (name : string)
  : result string :=
  match lookup name mapping with
  | Some value => Ok value
  | None => Raise KeyError
  end.

(** Where the scan of a template stands: in plain text, after a [$], in a
    name that follows a [$], after [${], in a name that follows [${]. *)
Inductive scan_state : Type :=
| InText
| AfterDollar
| InName (name : string)
| AfterBrace
| InBraced (name : string).

(** [Template(template).substitute(mapping)], scanning from state [st]:
    [$$] gives [$], [$name] and [${name}] give [mapping[name]] (the longest
    name is taken), any other [$] raises [ValueError], a name the mapping
    lacks raises [KeyError].  The values are inserted as they are and are
    not scanned again. *)
Fixpoint substitute_from (mapping : list (string * string)) (st : scan_state)
    (template : string) : result string :=
  match template with
  | EmptyString =>
      match st with
      | InText => Ok EmptyString
      | InName name => mapping_get mapping name
      | AfterDollar | AfterBrace | InBraced _ => Raise ValueError
      end
  | String c rest =>
      match st with
      | InText =>
          if Ascii.eqb c "$" then substitute_from mapping AfterDollar rest
          else tail <- substitute_from mapping InText rest ;;
               Ok (String c tail)
      | AfterDollar =>
          if Ascii.eqb c "$" then
            tail <- substitute_from mapping InText rest ;;
            Ok (String "$" tail)
          else if is_id_start c then
            substitute_from mapping (InName (String c EmptyString)) rest
          else if Ascii.eqb c "{" then substitute_from mapping AfterBrace rest
          else Raise ValueError
      | InName name =>
          if is_id_char c then
            substitute_from mapping (InName (name ++ String c EmptyString)) rest
          else
            value <- mapping_get mapping name ;;
            tail <- (if Ascii.eqb c "$" then
                       substitute_from mapping AfterDollar rest
                     else t <- substitute_from mapping InText rest ;;
                          Ok (String c t)) ;;
            Ok (value ++ tail)%string
      | AfterBrace =>
          if is_id_start c then
            substitute_from mapping (InBraced (String c EmptyString)) rest
          else Raise ValueError
      | InBraced name =>
          if is_id_char c then
            substitute_from mapping (InBraced (name ++ String c EmptyString)) rest
          else if Ascii.eqb c "}" then
            value <- mapping_get mapping name ;;
            tail <- substitute_from mapping InText rest ;;
            Ok (value ++ tail)%string
          else Raise ValueError
      end
  end.

Definition substitute (template : string) (mapping : list (string * string))
  : result string :=
  substitute_from mapping InText template.

(** The result of [substitute], or the empty string when it raises. *)
Definition text_of (r : result string) : string :=
  match r with
  | Ok text => text
  | Raise _ => EmptyString
  end.

(** ** The files and [render] *)

(** The files written so far, the latest first; [read_file] gives the
    current content of a path. *)
Definition files : Type := list (string * string).

Definition write_file (path content : string) (fs : files) : files :=
  (path, content) :: fs.

Definition read_file (path : string) (fs : files) : option string :=
  lookup path fs.

Section RenderFiles.

Context {ext : Externals}.

(** Lines 235-241: the dictionary given to [substitute]. *)
Definition page_mapping (self : GeoPlot) (first last : Timestamp)
    (geojsons : list (pyobj scalar)) : list (string * string) :=
  [("accessToken", cesium_token self);
   ("startTime", isoformat first);
   ("stopTime", isoformat last);
   ("data", json_dumps (PyList geojsons));
   ("visualType", visualization_type self)].

(** Lines 232-241: the argument of [f.write]. *)
Definition render_page (self : GeoPlot) (timestamps : list Timestamp)
    (geojsons : list (pyobj scalar)) : result string :=
  first <- getitem timestamps 0 ;;
  last <- getitem timestamps (-1) ;;
  substitute geoplot_template (page_mapping self first last geojsons).

(** Lines 224-242: the two files.  [open(path, "w")] empties the file
    before its new content is computed; when [json.dump] raises, the file
    keeps what was written. *)
Definition render_write (self : GeoPlot) (timestamps : list Timestamp)
    (geojsons : list (pyobj scalar)) (fs : files) : files * result unit :=
  let name := name (metadata (config self)) in
  let geodata_path := (name ++ ".geojson")%string in
  let geoplot_path := (name ++ ".html")%string in
  if negb (writable geodata_path) then (fs, Raise OSError) else
  let dumped := json_dump_indent (PyList geojsons) in
  let fs1 := write_file geodata_path (fst dumped) fs in
  match snd dumped with
  | Some e => (fs1, Raise e)
  | None =>
  if negb (writable geoplot_path) then (fs1, Raise OSError) else
  let fs2 := write_file geoplot_path EmptyString fs1 in
  match render_page self timestamps geojsons with
  | Raise e => (fs2, Raise e)
  | Ok html => (write_file geoplot_path html fs2, Ok tt)
  end
  end.

(** [GeoPlot.render]: the files after the call and how the call ends. *)
Definition render (self : GeoPlot) (state_trajectory : StateTrajectory)
    (utcnow : Timestamp) (fs : files) : files * result unit :=
  match render_geojsons self state_trajectory utcnow with
  | Raise e => (fs, Raise e)
  | Ok (timestamps, geojsons) => render_write self timestamps geojsons fs
  end.

End RenderFiles.

(** ** The script of the page

    The part of the embedded script that the rendered value of
    [$visualType] decides: the string literal it is put in, the test
    against ['size'], and [interpolateColor]. *)

(** The character a backslash escape stands for in a string literal:
    the single-character escapes, and any other character for itself.
    Escapes that start with a digit, [x] or [u], and a backslash before a
    line break, are not modelled ([None]). *)
Definition js_escape (c : ascii) : option ascii :=
  if (Ascii.eqb c "b")%char then Some "008"%char
  else if (Ascii.eqb c "t")%char then Some "009"%char
  else if (Ascii.eqb c "n")%char then Some "010"%char
  else if (Ascii.eqb c "v")%char then Some "011"%char
  else if (Ascii.eqb c "f")%char then Some "012"%char
  else if (Ascii.eqb c "r")%char then Some "013"%char
  else if (Ascii.leb "0" c && Ascii.leb c "9")%char then None
  else if (Ascii.eqb c "x" || Ascii.eqb c "u")%char then None
  else if (Ascii.eqb c "010" || Ascii.eqb c "013")%char then None
  else Some c.

(** A single-quoted string literal, read from just after its opening
    quote: its value and the text after its closing quote.  [None] when
    the literal is not closed on its line or uses an escape that is not
    modelled. *)
Fixpoint js_string_literal (text : string) : option (string * string) :=
  match text with
  | EmptyString => None
  | String c rest =>
      if (Ascii.eqb c "'")%char then Some (EmptyString, rest)
      else if (Ascii.eqb c "010" || Ascii.eqb c "013")%char then None
      else if (Ascii.eqb c "\")%char then
        match rest with
        | EmptyString => None
        | String e rest' =>
            match js_escape e, js_string_literal rest' with
            | Some d, Some (value, after) => Some (String d value, after)
            | _, _ => None
            end
        end
      else
        match js_string_literal rest with
        | Some (value, after) => Some (String c value, after)
        | None => None
        end
  end.

(** The text after [prefix], when [text] starts with it. *)
Fixpoint strip_prefix (prefix text : string) : option string :=
  match prefix, text with
  | EmptyString, _ => Some text
  | String p prefix', String c text' =>
      if Ascii.eqb p c then strip_prefix prefix' text' else None
  | String _ _, EmptyString => None
  end.

(** The text before and the text after the first place where [marker] is
    found in [text]. *)
Fixpoint split_on (marker text : string) : option (string * string) :=
  match strip_prefix marker text with
  | Some after => Some (EmptyString, after)
  | None =>
      match text with
      | EmptyString => None
      | String c rest =>
          match split_on marker rest with
          | Some (before, after) => Some (String c before, after)
          | None => None
          end
      end
  end.

Definition around (marker text : string) : string * string :=
  match split_on marker text with
  | Some parts => parts
  | None => (EmptyString, EmptyString)
  end.

(** Line 44 of the file once [$accessToken] is replaced by [token]. *)
Definition token_assignment (token : string) : string :=
  ("Cesium.Ion.defaultAccessToken = '" ++ token ++ "';")%string.

(** Line 52 of the file once [$visualType] is replaced by [visualType]. *)
Definition alpha_statement (visualType : string) : string :=
  ("result.alpha = '" ++ visualType ++
   "' == 'size' ? 0.2 : color1.alpha + factor * (color2.alpha - color1.alpha);")%string.

(** The texts that a list of markers, found one after the other, cuts
    [text] into; and these texts with a value after each but the last. *)
Fixpoint texts_between (markers : list string) (text : string) : list string :=
  match markers with
  | [] => [text]
  | marker :: rest =>
      fst (around marker text) :: texts_between rest (snd (around marker text))
  end.

Fixpoint interleave (texts values : list string) : string :=
  match texts, values with
  | [], _ => EmptyString
  | text :: _, [] => text
  | text :: texts', value :: values' =>
      (text ++ value ++ interleave texts' values')%string
  end.

(** The seven placeholders of the template, in the order of the text. *)
Definition placeholders : list string :=
  ["$accessToken"; "$visualType"; "$visualType"; "$visualType"; "$data";
   "$startTime"; "$stopTime"].

(** The eight texts of the template between its placeholders. *)
Definition template_texts : list string :=
  texts_between placeholders geoplot_template.

Fixpoint has_dollar (s : string) : bool :=
  match s with
  | EmptyString => false
  | String c rest => Ascii.eqb c "$" || has_dollar rest
  end.

(** Line 72 of the file, where the script takes the key it groups the
    Features by. *)
Definition grouping_line : string := "const id = feature.properties.id;".

(** The template around its line 44 and around its line 52. *)
Definition before_token : string :=
  fst (around (token_assignment "$accessToken") geoplot_template).

Definition after_token : string :=
  snd (around (token_assignment "$accessToken") geoplot_template).

Definition between_token_and_alpha : string :=
  fst (around (alpha_statement "$visualType") after_token).

Definition after_alpha : string :=
  snd (around (alpha_statement "$visualType") after_token).

(** The value of the test of a statement
    [result.alpha = '...' == 'size' ? 0.2 : color1.alpha + factor * (color2.alpha - color1.alpha);]:
    whether the literal on the left is the string [size].  [None] when the
    text is not such a statement. *)
Definition alpha_test (statement : string) : option bool :=
  match strip_prefix "result.alpha = '" statement with
  | None => None
  | Some text =>
      match js_string_literal text with
      | None => None
      | Some (literal, after) =>
          if String.eqb after
               " == 'size' ? 0.2 : color1.alpha + factor * (color2.alpha - color1.alpha);"
          then Some (String.eqb literal "size")
          else None
      end
  end.

Section Script.

(** The numbers of the script and the three operations [interpolateColor]
    uses; [n_0_2] is the number the literal [0.2] denotes.  Nothing is
    assumed about the arithmetic. *)
Variable number : Type.
Variables add sub mul : number -> number -> number.
Variable n_0_2 : number.

Record Color : Type := {
  red : number;
  green : number;
  blue : number;
  alpha : number
}.

Definition lerp (a b factor : number) : number := add a (mul factor (sub b a)).

(** [interpolateColor], lines 47-54; [is_size] is the value of
    ['$visualType' == 'size'] in the rendered page. *)
Definition interpolateColor (is_size : bool) (color1 color2 : Color)
    (factor : number) : Color :=
  {| red := lerp (red color1) (red color2) factor;
     green := lerp (green color1) (green color2) factor;
     blue := lerp (blue color1) (blue color2) factor;
     alpha := if is_size then n_0_2
              else lerp (alpha color1) (alpha color2) factor |}.

(** [interpolateColor] of the page rendered with [visualType]. *)
Definition page_interpolateColor (visualType : string) (color1 color2 : Color)
    (factor : number) : option Color :=
  match alpha_test (alpha_statement visualType) with
  | Some is_size => Some (interpolateColor is_size color1 color2 factor)
  | None => None
  end.

End Script.

Arguments red {number} c.
Arguments green {number} c.
Arguments blue {number} c.
Arguments alpha {number} c.
Arguments lerp {number} add sub mul a b factor.
Arguments interpolateColor {number} add sub mul n_0_2 is_size color1 color2 factor.
Arguments page_interpolateColor {number} add sub mul n_0_2 visualType color1 color2 factor.

(** [o.key] in the script: [None] is [undefined]. *)
Definition member {A : Type} (o : pyobj A) (key : string) : option (pyobj A) :=
  match o with
  | PyDict entries => lookup key entries
  | _ => None
  end.

(** [feature.properties.key] *)
Definition property {A : Type} (key : string) (feature : pyobj A)
  : option (pyobj A) :=
  match member feature "properties" with
  | Some properties => member properties key
  | None => None
  end.

(** [feature.properties.id], line 72. *)
Definition feature_id {A : Type} (feature : pyobj A) : option (pyobj A) :=
  property "id" feature.

(** [feature.geometry.coordinates], line 75. *)
Definition geometry_coordinates {A : Type} (feature : pyobj A)
  : option (pyobj A) :=
  match member feature "geometry" with
  | Some geometry => member geometry "coordinates"
  | None => None
  end.

(** [geoJsonData.features], line 71. *)
Definition features_of {A : Type} (collection : pyobj A) : list (pyobj A) :=
  match member collection "features" with
  | Some (PyList features) => features
  | _ => []
  end.

(** A list of two or more items: what [coord[1]] and [coord[0]] need. *)
Definition has_two_items {A : Type} (o : pyobj A) : bool :=
  match o with
  | PyList (_ :: _ :: _) => true
  | _ => false
  end.

(** The two items of a pair, exchanged. *)
Definition swap_pair {A : Type} (o : pyobj A) : option (pyobj A) :=
  match o with
  | PyList [a; b] => Some (PyList [b; a])
  | _ => None
  end.

(** A character that is taken as it is inside a single-quoted literal of
    an inline script: not the quote, not the backslash, not a line break,
    and not [<], with which the end tag of the script element starts. *)
Definition plain_char (c : ascii) : bool :=
  negb (Ascii.eqb c "'" || Ascii.eqb c "\" || Ascii.eqb c "010"
        || Ascii.eqb c "013" || Ascii.eqb c "<")%char.

Fixpoint plain (s : string) : bool :=
  match s with
  | EmptyString => true
  | String c rest => plain_char c && plain rest
  end.

(** ** A concrete run *)

Module Scenario.

(** The numbers of the example states: Python integers, and floats given
    as [mantissa * 2 ^ exponent]. *)
Inductive number : Type :=
| Int (z : Z)
| Float (mantissa exponent : Z).

(** A state of the example: what each of the two configured paths resolves
    to in it. *)
Record snapshot : Type := {
  at_coordinates : result (ndarray number);
  at_feature : result (ndarray number)
}.

Definition resolve (state : snapshot) (path : list string)
  : result (ndarray number) :=
  if list_eq_dec string_dec path ["agents"; "position"] then at_coordinates state
  else if list_eq_dec string_dec path ["agents"; "value"] then at_feature state
  else Raise KeyError.

(** The common type of integers and floats: with a float among the
    scalars, an integer becomes the float of the same value. *)
Definition is_float (x : number) : bool :=
  match x with
  | Int _ => false
  | Float _ _ => true
  end.

Definition promote (all : list number) (x : number) : number :=
  match x with
  | Int z => if existsb is_float all then Float z 0 else Int z
  | Float _ _ => x
  end.

(** A placeholder for the timedelta of a float number of seconds: the
    exact product, cut to whole nanoseconds.  The one float [step_time]
    of the runs below is [0.5], on the indices 0 to 2, where the float
    products are exact. *)
Definition exact_nanoseconds (i mantissa exponent : Z) : result Z :=
  let ns := if 0 <=? exponent
            then i * mantissa * 1000000000 * 2 ^ exponent
            else Z.quot (i * mantissa * 1000000000) (2 ^ (- exponent)) in
  if representable ns then Ok ns else Raise OutOfBoundsTimedelta.

(** The printers given here print every document. *)
Definition externals_with (iso : Timestamp -> string)
    (dumps dump_indent : pyobj number -> string) (can_write : string -> bool)
  : Externals :=
  {| State := snapshot;
     scalar := number;
     get_by_path := resolve;
     common_type := promote;
     Timedelta_of_float := exact_nanoseconds;
     isoformat := iso;
     json_dumps := dumps;
     json_dump_indent := fun o => (dump_indent o, None);
     writable := can_write |}.

(** Placeholders for the library functions, to run the model on concrete
    inputs: the time is printed as its number of nanoseconds and a JSON
    document as the number of its top-level items.  No result below
    depends on this choice. *)
Definition digits (n : nat) : string :=
  NilZero.string_of_uint (Nat.to_uint n).

Definition placeholder_isoformat (t : Timestamp) : string :=
  NilZero.string_of_int (Z.to_int t).

Definition placeholder_dumps (o : pyobj number) : string :=
  match o with
  | PyList [] => "[]"
  | PyList items => ("[" ++ digits (length items) ++ " items]")%string
  | _ => "{}"
  end.

Definition externals : Externals :=
  externals_with placeholder_isoformat placeholder_dumps placeholder_dumps
                 (fun _ => true).

Definition pair (x y : Z) : ndarray number :=
  Array [Scalar (Float x 0); Scalar (Float y 0)].

Definition state0 : snapshot :=
  {| at_coordinates := Ok (Array [pair 10 20; pair 30 40]);
     at_feature := Ok (Array [Scalar (Int 1); Scalar (Int 2)]) |}.

Definition state1 : snapshot :=
  {| at_coordinates := Ok (Array [pair 11 21; pair 31 41]);
     at_feature := Ok (Array [Scalar (Int 3); Scalar (Int 4)]) |}.

(** A state in which neither path resolves. *)
Definition unreadable : snapshot :=
  {| at_coordinates := Raise KeyError; at_feature := Raise KeyError |}.

(** Three episodes of one state each. *)
Definition trajectory (state2 : snapshot) : list (list snapshot) :=
  [[state0]; [state1]; [state2]].

Definition the_config : Config :=
  {| metadata := {| name := "simulation";
                    num_episodes := 3;
                    num_steps_per_episode := 1 |} |}.

Definition the_options : Options :=
  {| opt_cesium_token := "token";
     opt_step_time := Whole 60;
     opt_coordinates := "agents/position";
     opt_feature := "agents/value";
     opt_visualization_type := "color" |}.

Definition plot : GeoPlot := init the_config the_options.

(** The same plot with another visualization type. *)
Definition plot_with (visualType : string) : GeoPlot :=
  init the_config
    {| opt_cesium_token := "token";
       opt_step_time := Whole 60;
       opt_coordinates := "agents/position";
       opt_feature := "agents/value";
       opt_visualization_type := visualType |}.


(** What the extraction gives on [trajectory]. *)
Definition coords1 : pyobj number :=
  PyList [PyList [PyNum (Float 11 0); PyNum (Float 21 0)];
          PyList [PyNum (Float 31 0); PyNum (Float 41 0)]].

Definition values01 : list (list number) :=
  [[Int 1; Int 2]; [Int 3; Int 4]].

Definition coords0 : pyobj number :=
  PyList [PyList [PyNum (Float 10 0); PyNum (Float 20 0)];
          PyList [PyNum (Float 30 0); PyNum (Float 40 0)]].

(** A state with two values for each of its two entities. *)
Definition state_matrix : snapshot :=
  {| at_coordinates := Ok (Array [pair 10 20; pair 30 40]);
     at_feature := Ok (Array [Array [Scalar (Int 1); Scalar (Int 2)];
                              Array [Scalar (Int 3); Scalar (Int 4)]]) |}.

(** A Feature as line 211 builds it. *)
Definition Feature (iso : Timestamp -> string) (lon lat : pyobj number)
    (value : number) (time : Timestamp) : pyobj number :=
  PyDict [("type", PyStr "Feature");
          ("geometry", PyDict [("type", PyStr "Point");
                               ("coordinates", PyList [lon; lat])]);
          ("properties", PyDict [("value", PyNum value);
                                 ("time", PyStr (iso time))])].

Definition FeatureCollection (features : list (pyobj number)) : pyobj number :=
  PyDict [("type", PyStr "FeatureCollection"); ("features", PyList features)].

(** The three timestamps and the two collections of the run on
    [trajectory], for a start time [utcnow]. *)
Definition timestamps3 (utcnow : Timestamp) : list Timestamp :=
  [utcnow; utcnow + 60000000000; utcnow + 120000000000].

Definition geojsons2 (iso : Timestamp -> string) (utcnow : Timestamp)
  : list (pyobj number) :=
  [FeatureCollection
     [Feature iso (PyNum (Float 21 0)) (PyNum (Float 11 0)) (Int 1) utcnow;
      Feature iso (PyNum (Float 21 0)) (PyNum (Float 11 0)) (Int 3)
              (utcnow + 60000000000)];
   FeatureCollection
     [Feature iso (PyNum (Float 41 0)) (PyNum (Float 31 0)) (Int 2) utcnow;
      Feature iso (PyNum (Float 41 0)) (PyNum (Float 31 0)) (Int 4)
              (utcnow + 60000000000)]].

(** The collections of the run on [[state_matrix]; [state0]], whose one
    visited state has four values for two entities. *)
Definition geojsons_matrix (iso : Timestamp -> string) (utcnow : Timestamp)
  : list (pyobj number) :=
  [FeatureCollection
     [Feature iso (PyNum (Float 20 0)) (PyNum (Float 10 0)) (Int 1) utcnow];
   FeatureCollection
     [Feature iso (PyNum (Float 40 0)) (PyNum (Float 30 0)) (Int 2) utcnow]].

End Scenario.

(** ** The rest of the file

    What the properties of the second part need beside the definitions
    above: the pieces of a path, a matrix of values, one visit of the
    extraction loop, the two paths [render] writes to, and, of the script
    of the page, [processTimeSeriesData] and the two other tests on
    [$visualType]. *)

Fixpoint has_slash (s : string) : bool :=
  match s with
  | EmptyString => false
  | String c rest => Ascii.eqb c "/" || has_slash rest
  end.

Fixpoint count_slash (s : string) : nat :=
  match s with
  | EmptyString => 0%nat
  | String c rest =>
      if Ascii.eqb c "/" then S (count_slash rest) else count_slash rest
  end.

(** A two-dimensional array, given by its rows. *)
Definition matrix {A : Type} (rows : list (list A)) : ndarray A :=
  Array (map (fun row => Array (map Scalar row)) rows).

Section Visit.

Context {ext : Externals}.

(** What one turn of the loop of lines 187-192 reads from its episode:
    the last state, then the array of the coordinates, then the array of
    the values. *)
Definition read_episode (self : GeoPlot) (episode : Episode)
  : result (ndarray scalar * ndarray scalar) :=
  final_state <- final_state_of episode ;;
  position <- read_array final_state (entity_position self) ;;
  property <- read_array final_state (entity_property self) ;;
  Ok (position, property).

(** A collection without Features. *)
Definition empty_collection : pyobj scalar :=
  PyDict [("type", PyStr "FeatureCollection"); ("features", PyList [])].

End Visit.

(** Line 184: the two paths. *)
Definition geodata_path (self : GeoPlot) : string :=
  (name (metadata (config self)) ++ ".geojson")%string.

Definition geoplot_path (self : GeoPlot) : string :=
  (name (metadata (config self)) ++ ".html")%string.

(** The number of timestamps asked for, lines 200-201. *)
Definition timestamp_count (self : GeoPlot) : Z :=
  num_episodes (metadata (config self)) *
  num_steps_per_episode (metadata (config self)).

Section TimeSeries.

(** The values of the script are the objects of the embedded document,
    with [None] for [undefined].  Taken from outside the file:
    [Cesium.JulianDate.fromIso8601], which can throw; the numbers with
    [Infinity], [-Infinity], [Math.min] and [Math.max]; and the equality of
    the keys of a [Map]. *)
Variable A : Type.
Variable julian : Type.
Variable fromIso8601 : option (pyobj A) -> result julian.
Variable number : Type.
Variables infinity neg_infinity : number.
Variables math_min math_max : number -> option (pyobj A) -> number.
Variable same_key : option (pyobj A) -> option (pyobj A) -> bool.

(** [{ time, value, coordinates }], line 80. *)
Record sample : Type := {
  sample_time : julian;
  sample_value : option (pyobj A);
  sample_coordinates : option (pyobj A)
}.

(** What [processTimeSeriesData] returns, line 86; the map as its entries
    in the order the keys were set. *)
Record series_data : Type := {
  timeSeriesMap : list (option (pyobj A) * list sample);
  minValue : number;
  maxValue : number
}.

(** Lines 77-80: the sample is pushed to the series of its key, which is
    set to an empty series first when the map does not have the key. *)
Fixpoint push_sample (id : option (pyobj A)) (s : sample)
    (entries : list (option (pyobj A) * list sample))
  : list (option (pyobj A) * list sample) :=
  match entries with
  | [] => [(id, [s])]
  | (key, series) :: rest =>
      if same_key key id then (key, series ++ [s]) :: rest
      else (key, series) :: push_sample id s rest
  end.

(** Lines 72-83, the body of the [forEach]: reading a property of
    [undefined] throws a [TypeError]. *)
Definition process_feature (acc : series_data) (feature : pyobj A)
  : result series_data :=
  match member feature "properties" with
  | None => Raise TypeError
  | Some properties =>
      let id := member properties "id" in
      time <- fromIso8601 (member properties "time") ;;
      let value := member properties "value" in
      match member feature "geometry" with
      | None => Raise TypeError
      | Some geometry =>
          let coordinates := member geometry "coordinates" in
          Ok {| timeSeriesMap :=
                  push_sample id
                    {| sample_time := time;
                       sample_value := value;
                       sample_coordinates := coordinates |}
                    (timeSeriesMap acc);
                minValue := math_min (minValue acc) value;
                maxValue := math_max (maxValue acc) value |}
      end
  end.

Fixpoint process_features (features : list (pyobj A)) (acc : series_data)
  : result series_data :=
  match features with
  | [] => Ok acc
  | feature :: rest =>
      acc' <- process_feature acc feature ;;
      process_features rest acc'
  end.

(** [processTimeSeriesData], lines 66-87. *)
Definition processTimeSeriesData (geoJsonData : pyobj A) : result series_data :=
  match member geoJsonData "features" with
  | Some (PyList features) =>
      process_features features
        {| timeSeriesMap := []; minValue := infinity; maxValue := neg_infinity |}
  | _ => Raise TypeError
  end.

End TimeSeries.

Arguments sample_time {A julian} s.
Arguments sample_value {A julian} s.
Arguments sample_coordinates {A julian} s.
Arguments timeSeriesMap {A julian number} s.
Arguments minValue {A julian number} s.
Arguments maxValue {A julian number} s.

Section Taken.

Context {ext : Externals}.

Variable julian : Type.
Variable fromIso8601 : option (pyobj scalar) -> result julian.

(** A Feature as [render] builds it, for a timestamp of [timestamps]. *)
Definition built (timestamps : list Timestamp) (f : pyobj scalar) : Prop :=
  exists lon lat value time,
    In time timestamps /\
    f = PyDict
          [("type", PyStr "Feature");
           ("geometry",
            PyDict [("type", PyStr "Point");
                    ("coordinates", PyList [lon; lat])]);
           ("properties",
            PyDict [("value", PyNum value);
                    ("time", PyStr (isoformat time))])].

(** The sample the script takes from a Feature. *)
Definition taken (f : pyobj scalar) (s : sample scalar julian) : Prop :=
  fromIso8601 (property "time" f) = Ok (sample_time s) /\
  sample_value s = property "value" f /\
  sample_coordinates s = geometry_coordinates f.

End Taken.

(** Lines 100 and 113 of the file once [$visualType] is replaced. *)
Definition pixel_size_line (visualType : string) : string :=
  ("pixelSize: '" ++ visualType ++
   "' == 'size' ? new Cesium.SampledProperty(Number) : 10,")%string.

Definition sample_guard (visualType : string) : string :=
  ("if ('" ++ visualType ++ "' == 'size') {")%string.

(** The value of the test of a line that starts with [opening], has a
    single-quoted literal there, and goes on with [closing]: whether the
    literal is the string [size]. *)
Definition size_test (opening closing line : string) : option bool :=
  match strip_prefix opening line with
  | None => None
  | Some text =>
      match js_string_literal text with
      | None => None
      | Some (literal, after) =>
          if String.eqb after closing then Some (String.eqb literal "size")
          else None
      end
  end.

Definition pixel_size_test (line : string) : option bool :=
  size_test "pixelSize: '"
            " == 'size' ? new Cesium.SampledProperty(Number) : 10," line.

Definition sample_guard_test (line : string) : option bool :=
  size_test "if ('" " == 'size') {" line.

(** The template after its line 52: around line 100 and around line 113. *)
Definition between_alpha_and_pixel_size : string :=
  fst (around (pixel_size_line "$visualType") after_alpha).

Definition after_pixel_size : string :=
  snd (around (pixel_size_line "$visualType") after_alpha).

Definition between_pixel_size_and_guard : string :=
  fst (around (sample_guard "$visualType") after_pixel_size).

Definition after_guard : string :=
  snd (around (sample_guard "$visualType") after_pixel_size).

(** States for the runs of the second part: a state whose coordinates are
    a single number, and one whose coordinates are a row of numbers. *)
Module Shapes.

Definition state_scalar : Scenario.snapshot :=
  {| Scenario.at_coordinates := Ok (Scalar (Scenario.Float 10 0));
     Scenario.at_feature := Ok (Array [Scalar (Scenario.Int 1)]) |}.

Definition state_row : Scenario.snapshot :=
  {| Scenario.at_coordinates :=
       Ok (Array [Scalar (Scenario.Float 10 0); Scalar (Scenario.Float 20 0)]);
     Scenario.at_feature :=
       Ok (Array [Scalar (Scenario.Int 1); Scalar (Scenario.Int 2)]) |}.

(** A state whose coordinates are a column, one number per entity, and
    one whose coordinates are ragged: a pair, then a single number. *)
Definition state_column : Scenario.snapshot :=
  {| Scenario.at_coordinates :=
       Ok (Array [Array [Scalar (Scenario.Float 10 0)];
                  Array [Scalar (Scenario.Float 30 0)]]);
     Scenario.at_feature :=
       Ok (Array [Scalar (Scenario.Int 1); Scalar (Scenario.Int 2)]) |}.

Definition state_ragged : Scenario.snapshot :=
  {| Scenario.at_coordinates :=
       Ok (Array [Scenario.pair 10 20; Array [Scalar (Scenario.Float 30 0)]]);
     Scenario.at_feature :=
       Ok (Array [Scalar (Scenario.Int 1); Scalar (Scenario.Int 2)]) |}.

(** The plot of the run with no step per episode. *)
Definition plot_without_steps : GeoPlot :=
  init {| metadata := {| name := "simulation";
                         num_episodes := 3;
                         num_steps_per_episode := 0 |} |}
       Scenario.the_options.

(** A stand-in for [Cesium.JulianDate.fromIso8601] that keeps the text,
    and the equality of keys on [undefined] and strings. *)
Definition keep_text (o : option (pyobj Scenario.number)) : result string :=
  match o with
  | Some (PyStr text) => Ok text
  | _ => Raise TypeError
  end.

Definition same_key (a b : option (pyobj Scenario.number)) : bool :=
  match a, b with
  | None, None => true
  | Some (PyStr x), Some (PyStr y) => String.eqb x y
  | _, _ => false
  end.

End Shapes.

(** * Properties *)

(** ** Results and sequences *)

Lemma bind_Ok {A B : Type} (r : result A) (k : A -> result B) (b : B) :
  bind r k = Ok b -> exists a, r = Ok a /\ k a = Ok b.
Proof.
  destruct r as [a|e]; simpl; intros H.
  - exists a. split; [reflexivity | exact H].
  - discriminate H.
Qed.

Lemma bind_Raise {A B : Type} (r : result A) (k : A -> result B) (e : exn) :
  bind r k = Raise e -> r = Raise e \/ exists a, r = Ok a /\ k a = Raise e.
Proof.
  destruct r as [a|e']; simpl; intros H.
  - right. exists a. split; [reflexivity | exact H].
  - left. congruence.
Qed.

Ltac bind_inv H :=
  let a := fresh "a" in
  let Ha := fresh "Ha" in
  apply bind_Ok in H; destruct H as [a [Ha H]].

Lemma range_0 (n : Z) : range 0 n = map Z.of_nat (seq 0 (Z.to_nat n)).
Proof.
  unfold range. rewrite Z.sub_0_r. apply map_ext. intros k. reflexivity.
Qed.

Lemma length_range (lo hi : Z) : length (range lo hi) = Z.to_nat (hi - lo).
Proof. unfold range. rewrite length_map, length_seq. reflexivity. Qed.

Lemma getitem_nat {A : Type} (l : list A) (i : nat) (x : A) :
  nth_error l i = Some x -> getitem l (Z.of_nat i) = Ok x.
Proof.
  intros H. unfold getitem.
  assert (Hi : (i < length l)%nat) by (apply nth_error_Some; congruence).
  replace (Z.of_nat i <? 0) with false by (symmetry; apply Z.ltb_ge; lia).
  replace (Z.of_nat i <? 0) with false by (symmetry; apply Z.ltb_ge; lia).
  replace (Z.of_nat (length l) <=? Z.of_nat i) with false
    by (symmetry; apply Z.leb_gt; lia).
  simpl. rewrite Nat2Z.id, H. reflexivity.
Qed.

Lemma getitem_nat_beyond {A : Type} (l : list A) (i : nat) :
  (length l <= i)%nat -> getitem l (Z.of_nat i) = Raise IndexError.
Proof.
  intros H. unfold getitem.
  replace (Z.of_nat i <? 0) with false by (symmetry; apply Z.ltb_ge; lia).
  replace (Z.of_nat i <? 0) with false by (symmetry; apply Z.ltb_ge; lia).
  replace (Z.of_nat (length l) <=? Z.of_nat i) with true
    by (symmetry; apply Z.leb_le; lia).
  reflexivity.
Qed.

Lemma getitem_nat_Ok {A : Type} (l : list A) (i : nat) (x : A) :
  getitem l (Z.of_nat i) = Ok x -> nth_error l i = Some x.
Proof.
  intros H. destruct (nth_error l i) as [y|] eqn:E.
  - rewrite (getitem_nat _ _ _ E) in H. congruence.
  - apply nth_error_None in E. rewrite (getitem_nat_beyond _ _ E) in H.
    discriminate H.
Qed.

Lemma getitem_nil {A : Type} (i : Z) : getitem (@nil A) i = Raise IndexError.
Proof.
  unfold getitem. simpl length. simpl Z.of_nat.
  destruct (i <? 0) eqn:E.
  - rewrite Z.add_0_r, E. reflexivity.
  - replace (0 <=? i) with true by (symmetry; apply Z.leb_le; apply Z.ltb_ge; exact E).
    rewrite orb_true_r. reflexivity.
Qed.

Lemma getitem_last {A : Type} (l : list A) (x : A) :
  getitem (l ++ [x]) (-1) = Ok x.
Proof.
  unfold getitem. rewrite length_app. simpl length.
  replace (-1 <? 0) with true by reflexivity.
  replace (-1 + Z.of_nat (length l + 1)) with (Z.of_nat (length l)) by lia.
  replace (Z.of_nat (length l) <? 0) with false by (symmetry; apply Z.ltb_ge; lia).
  replace (Z.of_nat (length l + 1) <=? Z.of_nat (length l)) with false
    by (symmetry; apply Z.leb_gt; lia).
  simpl. rewrite Nat2Z.id, nth_error_app2 by lia.
  rewrite Nat.sub_diag. reflexivity.
Qed.

Lemma length_zip {A B : Type} (xs : list A) (ys : list B) :
  length (zip xs ys) = Nat.min (length xs) (length ys).
Proof.
  revert ys. induction xs as [|x xs IH]; intros [|y ys]; simpl; auto.
Qed.

Lemma nth_error_zip {A B : Type} (xs : list A) (ys : list B) (k : nat)
    (x : A) (y : B) :
  nth_error (zip xs ys) k = Some (x, y) <->
  nth_error xs k = Some x /\ nth_error ys k = Some y.
Proof.
  revert ys k. induction xs as [|x' xs IH]; intros [|y' ys] [|k]; simpl;
    try (split; [discriminate | intros [H1 H2]; discriminate]).
  - split; [intros H; inversion H; auto | intros [H1 H2]; congruence].
  - apply IH.
Qed.

Lemma nth_error_enumerate_from {A : Type} (xs : list A) (start : Z) (k : nat) :
  nth_error (enumerate_from start xs) k =
  option_map (fun x => (start + Z.of_nat k, x)) (nth_error xs k).
Proof.
  revert start k. induction xs as [|x xs IH]; intros start [|k]; simpl; auto.
  - rewrite Z.add_0_r. reflexivity.
  - rewrite IH. destruct (nth_error xs k); simpl; auto.
    do 2 f_equal. lia.
Qed.

Lemma length_enumerate_from {A : Type} (xs : list A) (start : Z) :
  length (enumerate_from start xs) = length xs.
Proof. revert start. induction xs; intros; simpl; auto. Qed.

(** [for_each] succeeds exactly when the body succeeds on every item, and
    then gives the results in order. *)
Lemma for_each_Ok {A B : Type} (body : A -> result B) (xs : list A) (ys : list B) :
  for_each body xs = Ok ys <-> Forall2 (fun x y => body x = Ok y) xs ys.
Proof.
  revert ys. induction xs as [|x xs IH]; intros ys; simpl.
  - split; intros H.
    + inversion H. constructor.
    + inversion H. reflexivity.
  - split; intros H.
    + bind_inv H. bind_inv H. inversion H; subst.
      constructor; [assumption | apply IH; assumption].
    + inversion H as [|? y ? ys' Hy Hys]; subst.
      rewrite Hy. simpl. apply IH in Hys. rewrite Hys. reflexivity.
Qed.

(** When [for_each] raises, the body raised that exception on some item. *)
Lemma for_each_Raise {A B : Type} (body : A -> result B) (xs : list A) (e : exn) :
  for_each body xs = Raise e -> exists x, In x xs /\ body x = Raise e.
Proof.
  induction xs as [|x xs IH]; simpl; intros H.
  - discriminate H.
  - destruct (body x) as [y|e'] eqn:Ex; simpl in H.
    + destruct (for_each body xs) as [ys|e''] eqn:Exs; simpl in H.
      * discriminate H.
      * inversion H; subst. destruct (IH eq_refl) as [x' [Hin Hx']].
        exists x'. split; [right; assumption | assumption].
    + inversion H; subst. exists x. split; [left; reflexivity | assumption].
Qed.

(** When the body raises on some item, [for_each] raises. *)
Lemma for_each_fails {A B : Type} (body : A -> result B) (xs : list A) (x : A) :
  In x xs -> fails (body x) -> fails (for_each body xs).
Proof.
  induction xs as [|x' xs IH]; simpl; intros Hin [e He].
  - contradiction.
  - destruct Hin as [->|Hin].
    + rewrite He. simpl. exists e. reflexivity.
    + destruct (body x') as [y|e'] eqn:Ex; simpl.
      * destruct (IH Hin (ex_intro _ e He)) as [e'' Hf]. rewrite Hf. simpl.
        exists e''. reflexivity.
      * exists e'. reflexivity.
Qed.

Lemma for_each_total {A B : Type} (body : A -> result B) (xs : list A) :
  (forall x, In x xs -> exists y, body x = Ok y) ->
  exists ys, for_each body xs = Ok ys.
Proof.
  induction xs as [|x xs IH]; intros H; simpl.
  - exists []. reflexivity.
  - destruct (H x (or_introl eq_refl)) as [y Hy].
    destruct IH as [ys Hys]; [intros z Hz; apply H; right; exact Hz|].
    exists (y :: ys). rewrite Hy, Hys. reflexivity.
Qed.

Lemma Forall2_nth_error {A B : Type} (R : A -> B -> Prop) (xs : list A)
    (ys : list B) (k : nat) (y : B) :
  Forall2 R xs ys -> nth_error ys k = Some y ->
  exists x, nth_error xs k = Some x /\ R x y.
Proof.
  intros H. revert k. induction H as [|x y' xs ys Hxy H IH]; intros [|k] Hk;
    simpl in *; try discriminate.
  - inversion Hk; subst. exists x. auto.
  - apply IH. assumption.
Qed.

Lemma skipn_nth_error {A : Type} (l : list A) (k : nat) (x : A) :
  nth_error l k = Some x -> skipn k l = x :: skipn (S k) l.
Proof.
  revert k. induction l as [|y l IH]; intros [|k] H; simpl in *;
    try discriminate.
  - inversion H. reflexivity.
  - apply IH. exact H.
Qed.

Lemma last_cons {A : Type} (l : list A) (a d : A) : last (a :: l) d = last l a.
Proof.
  revert a d. induction l as [|b l IH]; intros a d.
  - reflexivity.
  - change (last (a :: b :: l) d) with (last (b :: l) d).
    rewrite (IH b d), (IH b a). reflexivity.
Qed.

Lemma nth_error_removelast {A : Type} (l : list A) (i : nat) :
  (i < length l - 1)%nat -> nth_error (removelast l) i = nth_error l i.
Proof.
  intros H. rewrite removelast_firstn_len, nth_error_firstn.
  replace (i <? pred (length l))%nat with true
    by (symmetry; apply Nat.ltb_lt; lia).
  reflexivity.
Qed.

(** ** The extraction loop *)

Section Extraction.

Context {ext : Externals}.

Variable self : GeoPlot.

(** The loop over the indices [k .. k+m-1] is the extraction over the last
    states of the episodes at these indices. *)
Lemma extract_loop_over (state_trajectory : StateTrajectory) (m k : nat)
    (acc : pyobj scalar * list (list scalar)) :
  (k + m <= length state_trajectory)%nat ->
  extract_loop self state_trajectory (map Z.of_nat (seq k m)) acc =
  extract_over self (map final_state_of (firstn m (skipn k state_trajectory))) acc.
Proof.
  revert k acc. induction m as [|m IH]; intros k acc Hk.
  - reflexivity.
  - destruct (nth_error state_trajectory k) as [episode|] eqn:E.
    2: { apply nth_error_None in E. lia. }
    rewrite (skipn_nth_error _ _ _ E). simpl.
    destruct acc as [coords values]. unfold extract_step.
    rewrite (getitem_nat _ _ _ E). simpl.
    destruct (final_state_of episode) as [state|e]; simpl; [|reflexivity].
    destruct (read_array state (entity_position self)) as [position|e]; simpl;
      [|reflexivity].
    destruct (read_array state (entity_property self)) as [property|e]; simpl;
      [|reflexivity].
    apply IH. lia.
Qed.

(** [render] extracts over the last states of all episodes but the last
    one. *)
Lemma render_extract_over (state_trajectory : StateTrajectory) :
  render_extract self state_trajectory =
  extract_over self (map final_state_of (removelast state_trajectory))
               (PyList [], []).
Proof.
  unfold render_extract. rewrite range_0.
  replace (Z.to_nat (Z.of_nat (length state_trajectory) - 1))
    with (length state_trajectory - 1)%nat by lia.
  rewrite extract_loop_over by lia.
  rewrite removelast_firstn_len.
  replace (pred (length state_trajectory)) with (length state_trajectory - 1)%nat
    by lia.
  reflexivity.
Qed.

(** What a successful extraction has read: a state, its coordinates and
    its values for each item of [finals]. *)
Lemma extract_over_Ok (finals : list (result State))
    (acc : pyobj scalar * list (list scalar)) (coords : pyobj scalar)
    (values : list (list scalar)) :
  extract_over self finals acc = Ok (coords, values) ->
  exists visits : list (State * (ndarray scalar * ndarray scalar)),
    finals = map (fun v => Ok (fst v)) visits /\
    Forall (fun v => read_array (fst v) (entity_position self) = Ok (fst (snd v)) /\
                     read_array (fst v) (entity_property self) = Ok (snd (snd v)))
           visits /\
    values = snd acc ++ map (fun v => flatten (snd (snd v))) visits /\
    coords = last (map (fun v => tolist (fst (snd v))) visits) (fst acc).
Proof.
  revert acc. induction finals as [|final rest IH]; intros acc H; simpl in H.
  - inversion H; subst. exists []. simpl. rewrite app_nil_r. auto.
  - apply bind_Ok in H. destruct H as [state [Hs H]].
    apply bind_Ok in H. destruct H as [position [Hpos H]].
    apply bind_Ok in H. destruct H as [property [Hprop H]].
    apply IH in H. destruct H as [visits [Hf [Hall [Hv Hc]]]].
    exists ((state, (position, property)) :: visits). simpl.
    repeat split.
    + rewrite Hs, Hf. reflexivity.
    + constructor; [split; assumption | assumption].
    + rewrite Hv. simpl. rewrite <- app_assoc. reflexivity.
    + rewrite Hc. simpl fst.
      symmetry. apply (last_cons (map (fun v => tolist (fst (snd v))) visits)).
Qed.

(** The extraction succeeds when every visited episode has a last state
    in which both paths resolve to arrays. *)
Lemma extract_over_total (finals : list (result State))
    (acc : pyobj scalar * list (list scalar)) :
  (forall final, In final finals ->
     exists state position property,
       final = Ok state /\
       read_array state (entity_position self) = Ok position /\
       read_array state (entity_property self) = Ok property) ->
  exists coords values, extract_over self finals acc = Ok (coords, values).
Proof.
  revert acc. induction finals as [|final rest IH]; intros acc H; simpl.
  - destruct acc as [coords values]. exists coords, values. reflexivity.
  - destruct (H final (or_introl eq_refl))
      as [state [position [property [-> [Hpos Hprop]]]]].
    simpl. rewrite Hpos. simpl. rewrite Hprop. simpl.
    apply IH. intros f Hf. apply H. right. exact Hf.
Qed.

Lemma render_extract_total (state_trajectory : StateTrajectory) :
  (forall episode, In episode (removelast state_trajectory) ->
     exists state position property,
       final_state_of episode = Ok state /\
       read_array state (entity_position self) = Ok position /\
       read_array state (entity_property self) = Ok property) ->
  exists coords values,
    render_extract self state_trajectory = Ok (coords, values).
Proof.
  intros H. rewrite render_extract_over. apply extract_over_total.
  intros final Hin. apply in_map_iff in Hin.
  destruct Hin as [episode [<- Hep]]. exact (H episode Hep).
Qed.

End Extraction.

Lemma length_removelast_minus {A : Type} (l : list A) :
  length (removelast l) = (length l - 1)%nat.
Proof. rewrite removelast_firstn_len, length_firstn. lia. Qed.

Lemma nth_error_last {A : Type} (l : list A) (d : A) :
  l <> [] -> nth_error l (length l - 1) = Some (last l d).
Proof.
  intros H. destruct (exists_last H) as [l' [a ->]].
  rewrite last_last, length_app. simpl.
  rewrite nth_error_app2 by lia.
  replace (length l' + 1 - 1 - length l')%nat with 0%nat by lia.
  reflexivity.
Qed.

Section ExtractionClaim.

Context {ext : Externals}.

(** The episode behind the [i]-th visit of a successful extraction. *)
Lemma visit_episode (state_trajectory : StateTrajectory)
    (visits : list (State * (ndarray scalar * ndarray scalar))) (i : nat)
    (v : State * (ndarray scalar * ndarray scalar)) :
  map final_state_of (removelast state_trajectory) =
    map (fun v => Ok (fst v)) visits ->
  nth_error visits i = Some v ->
  exists episode,
    nth_error state_trajectory i = Some episode /\
    final_state_of episode = Ok (fst v).
Proof.
  intros Hf Hv.
  assert (Hlen : length visits = (length state_trajectory - 1)%nat).
  { rewrite <- length_removelast_minus.
    rewrite <- (length_map final_state_of), Hf, length_map. reflexivity. }
  assert (Hi : (i < length state_trajectory - 1)%nat).
  { rewrite <- Hlen. apply nth_error_Some. congruence. }
  assert (E : nth_error (map final_state_of (removelast state_trajectory)) i =
              Some (Ok (fst v))).
  { rewrite Hf, nth_error_map, Hv. reflexivity. }
  rewrite nth_error_map, nth_error_removelast in E by exact Hi.
  destruct (nth_error state_trajectory i) as [episode|]; simpl in E;
    [|discriminate].
  exists episode. split; [reflexivity | congruence].
Qed.

Lemma final_state_of_Ok (episode : Episode) (state : State) :
  final_state_of episode = Ok state -> exists earlier, episode = earlier ++ [state].
Proof.
  unfold final_state_of. intros H.
  destruct episode as [|s episode]; [rewrite getitem_nil in H; discriminate H|].
  destruct (@exists_last _ (s :: episode)) as [earlier [y E]]; [discriminate|].
  rewrite E in *. rewrite getitem_last in H. inversion H; subst.
  exists earlier. reflexivity.
Qed.

Lemma final_state_of_last (earlier : Episode) (state : State) :
  final_state_of (earlier ++ [state]) = Ok state.
Proof. apply getitem_last. Qed.

Lemma same_ends (episodes episodes' : list Episode) :
  Forall2 (fun episode episode' =>
             exists earlier earlier' state,
               episode = earlier ++ [state] /\
               episode' = earlier' ++ [state])
          episodes episodes' ->
  map final_state_of episodes = map final_state_of episodes'.
Proof.
  induction 1 as [|episode episode' l l' [earlier [earlier' [state [-> ->]]]] _ IH];
    [reflexivity|].
  simpl. rewrite !final_state_of_last, IH. reflexivity.
Qed.

(** What [np.array] gives when it does not raise. *)
Lemma np_array_Ok (data array : ndarray scalar) :
  np_array data = Ok array ->
  shape data <> None /\ array = astype (common_type (flatten data)) data.
Proof.
  unfold np_array. destruct (shape data); intros H.
  - inversion H. split; [discriminate | reflexivity].
  - discriminate H.
Qed.

Lemma read_array_Ok (state : State) (var : string) (array : ndarray scalar) :
  read_array state var = Ok array ->
  exists data,
    read_var state var = Ok data /\
    shape data <> None /\
    array = astype (common_type (flatten data)) data.
Proof.
  unfold read_array. intros H. apply bind_Ok in H.
  destruct H as [data [Hd H]]. exists data. split; [exact Hd|].
  apply np_array_Ok. exact H.
Qed.

(** C2. For a trajectory of two or more episodes, a successful extraction
    has one entry of [values] per episode at the indices [0] to
    [len - 2], in this order: the entry of an episode is read from the
    State at the end of the episode, as the flattened array of the data
    its value path resolves to there.  [coords] is the array, as lists, of
    the data the coordinate path resolves to in the State at the end of
    the episode at index [len - 2].  The outcome is the same for every
    trajectory whose episodes but the last end with the same States, so
    neither the last episode nor an earlier State of an episode is read.
    Flattening lists the scalars of the array in order, and [tolist] keeps
    the nesting. *)
Theorem extraction_visits_all_but_last (self : GeoPlot)
    (state_trajectory : StateTrajectory) (coords : pyobj scalar)
    (values : list (list scalar)) :
  (2 <= length state_trajectory)%nat ->
  render_extract self state_trajectory = Ok (coords, values) ->
  length values = (length state_trajectory - 1)%nat /\
  (forall i, (i < length state_trajectory - 1)%nat ->
     exists earlier state data,
       nth_error state_trajectory i = Some (earlier ++ [state]) /\
       read_var state (entity_property self) = Ok data /\
       shape data <> None /\
       nth_error values i =
         Some (flatten (astype (common_type (flatten data)) data))) /\
  (exists earlier state data,
     nth_error state_trajectory (length state_trajectory - 2) =
       Some (earlier ++ [state]) /\
     read_var state (entity_position self) = Ok data /\
     shape data <> None /\
     coords = tolist (astype (common_type (flatten data)) data)) /\
  (forall other : StateTrajectory,
     Forall2 (fun episode episode' =>
                exists earlier earlier' state,
                  episode = earlier ++ [state] /\
                  episode' = earlier' ++ [state])
             (removelast state_trajectory) (removelast other) ->
     render_extract self other = Ok (coords, values)) /\
  (forall x : scalar, flatten (Scalar x) = [x] /\ tolist (Scalar x) = PyNum x) /\
  (forall items : list (ndarray scalar),
     flatten (Array items) = List.concat (map flatten items) /\
     tolist (Array items) = PyList (map tolist items)).
Proof.
  intros Hlen H.
  assert (Hover := H). rewrite render_extract_over in Hover.
  destruct (extract_over_Ok _ _ _ _ _ Hover) as [visits [Hf [Hall [Hv Hc]]]].
  simpl in Hv, Hc.
  assert (Hn : length visits = (length state_trajectory - 1)%nat).
  { rewrite <- length_removelast_minus.
    rewrite <- (length_map final_state_of), Hf, length_map. reflexivity. }
  rewrite Forall_forall in Hall.
  split; [|split; [|split; [|split; [|split]]]].
  - rewrite Hv, length_map. exact Hn.
  - intros i Hi.
    destruct (nth_error visits i) as [v|] eqn:Ev.
    2: { apply nth_error_None in Ev. lia. }
    destruct (visit_episode _ _ _ _ Hf Ev) as [episode [Hep Hfin]].
    destruct (final_state_of_Ok _ _ Hfin) as [earlier ->].
    destruct (Hall v (nth_error_In _ _ Ev)) as [_ Hprop].
    destruct (read_array_Ok _ _ _ Hprop) as [data [Hd [Hs Ha]]].
    exists earlier, (fst v), data.
    split; [exact Hep|]. split; [exact Hd|]. split; [exact Hs|].
    rewrite Hv, nth_error_map, Ev. simpl. rewrite Ha. reflexivity.
  - assert (Hne : visits <> []).
    { intros ->. simpl in Hn. lia. }
    destruct (exists_last Hne) as [before [v Ev]].
    assert (Eat : nth_error visits (length state_trajectory - 2) = Some v).
    { rewrite Ev. rewrite Ev, length_app in Hn. simpl in Hn.
      rewrite nth_error_app2 by lia.
      replace (length state_trajectory - 2 - length before)%nat with 0%nat by lia.
      reflexivity. }
    destruct (visit_episode _ _ _ _ Hf Eat) as [episode [Hep Hfin]].
    destruct (final_state_of_Ok _ _ Hfin) as [earlier ->].
    destruct (Hall v (nth_error_In _ _ Eat)) as [Hpos _].
    destruct (read_array_Ok _ _ _ Hpos) as [data [Hd [Hs Ha]]].
    exists earlier, (fst v), data.
    split; [exact Hep|]. split; [exact Hd|]. split; [exact Hs|].
    rewrite Hc, Ev, map_app. simpl. rewrite last_last, Ha. reflexivity.
  - intros other Hsame.
    rewrite render_extract_over.
    replace (map final_state_of (removelast other))
      with (map final_state_of (removelast state_trajectory));
      [exact Hover|].
    apply same_ends. exact Hsame.
  - intros x. split; reflexivity.
  - intros items. split; [|reflexivity].
    simpl. induction items as [|item items IH]; simpl; [reflexivity|].
    rewrite IH. reflexivity.
Qed.

End ExtractionClaim.

(** ** The features *)

Section Features.

Context {ext : Externals}.

Lemma feature_Ok (coord : pyobj scalar) (i : Z) (time : Timestamp)
    (value_list : list scalar) (f : pyobj scalar) :
  feature coord i time value_list = Ok f ->
  exists lon lat value,
    subscript coord 1 = Ok lon /\
    subscript coord 0 = Ok lat /\
    getitem value_list i = Ok value /\
    f = PyDict
          [("type", PyStr "Feature");
           ("geometry",
            PyDict [("type", PyStr "Point");
                    ("coordinates", PyList [lon; lat])]);
           ("properties",
            PyDict [("value", PyNum value);
                    ("time", PyStr (isoformat time))])].
Proof.
  unfold feature. intros H.
  apply bind_Ok in H. destruct H as [lon [Hlon H]].
  apply bind_Ok in H. destruct H as [lat [Hlat H]].
  apply bind_Ok in H. destruct H as [value [Hval H]].
  inversion H; subst. exists lon, lat, value. auto.
Qed.

(** The collection at index [i] of [geojsons] is built from the item at
    index [i] of [coords], with one Feature per pair of the [zip]. *)
Lemma collection_at (coords : pyobj scalar) (timestamps : list Timestamp)
    (values : list (list scalar)) (geojsons : list (pyobj scalar)) :
  render_features coords timestamps values = Ok geojsons ->
  exists entities,
    iterate coords = Ok entities /\
    length geojsons = length entities /\
    forall i collection,
      nth_error geojsons i = Some collection ->
      exists coord features,
        nth_error entities i = Some coord /\
        collection = PyDict [("type", PyStr "FeatureCollection");
                             ("features", PyList features)] /\
        Forall2 (fun tv f => feature coord (Z.of_nat i) (fst tv) (snd tv) = Ok f)
                (zip timestamps values) features.
Proof.
  unfold render_features. intros H.
  apply bind_Ok in H. destruct H as [entities [Hent H]].
  apply for_each_Ok in H.
  exists entities. split; [exact Hent|]. split.
  - apply Forall2_length in H. unfold enumerate in H.
    rewrite length_enumerate_from in H. congruence.
  - intros i collection Hi.
    destruct (Forall2_nth_error _ _ _ _ _ H Hi) as [[j coord] [Hj Hfc]].
    unfold enumerate in Hj. rewrite nth_error_enumerate_from in Hj.
    destruct (nth_error entities i) as [coord'|] eqn:Ec; simpl in Hj;
      [|discriminate].
    inversion Hj; subst. simpl in Hfc.
    apply bind_Ok in Hfc. destruct Hfc as [features [Hfs Hfc]].
    inversion Hfc; subst.
    apply for_each_Ok in Hfs.
    exists coord, features. auto.
Qed.

Lemma iterate_tolist (a : ndarray scalar) (entities : list (pyobj scalar)) :
  iterate (tolist a) = Ok entities -> tolist a = PyList entities.
Proof.
  destruct a as [x|items]; simpl; intros H.
  - discriminate H.
  - inversion H. reflexivity.
Qed.

(** The extracted [coords] is the empty list it starts as, or an array
    turned into lists. *)
Lemma extracted_coords (self : GeoPlot) (state_trajectory : StateTrajectory)
    (coords : pyobj scalar) (values : list (list scalar)) :
  render_extract self state_trajectory = Ok (coords, values) ->
  coords = PyList [] \/ exists a, coords = tolist a.
Proof.
  intros H. rewrite render_extract_over in H.
  destruct (extract_over_Ok _ _ _ _ _ H) as [visits [_ [_ [_ Hc]]]].
  simpl in Hc. destruct visits as [|v visits].
  - left. exact Hc.
  - right.
    destruct (@exists_last _ (v :: visits)) as [earlier [w Ew]];
      [discriminate|].
    rewrite Ew, map_app in Hc. simpl in Hc. rewrite last_last in Hc.
    exists (fst (snd w)). exact Hc.
Qed.

Lemma extracted_coords_list (self : GeoPlot) (state_trajectory : StateTrajectory)
    (coords : pyobj scalar) (values : list (list scalar))
    (entities : list (pyobj scalar)) :
  render_extract self state_trajectory = Ok (coords, values) ->
  iterate coords = Ok entities ->
  coords = PyList entities.
Proof.
  intros H Hit. destruct (extracted_coords _ _ _ _ H) as [->|[a ->]].
  - simpl in Hit. inversion Hit. reflexivity.
  - apply iterate_tolist. exact Hit.
Qed.

(** The stages behind a successful [render_geojsons]. *)
Lemma render_geojsons_Ok (self : GeoPlot) (state_trajectory : StateTrajectory)
    (utcnow : Timestamp) (timestamps : list Timestamp)
    (geojsons : list (pyobj scalar)) :
  render_geojsons self state_trajectory utcnow = Ok (timestamps, geojsons) ->
  exists coords values,
    render_extract self state_trajectory = Ok (coords, values) /\
    render_timestamps self utcnow = Ok timestamps /\
    render_features coords timestamps values = Ok geojsons.
Proof.
  unfold render_geojsons. intros H.
  apply bind_Ok in H. destruct H as [[coords values] [Hx H]].
  apply bind_Ok in H. destruct H as [ts [Hts H]].
  apply bind_Ok in H. destruct H as [gs [Hf H]].
  inversion H; subst. exists coords, values. auto.
Qed.

End Features.

Section FeatureClaims.

Context {ext : Externals}.

(** Every collection and every Feature of a successful [render_features],
    by its indices. *)
Lemma feature_at (coords : pyobj scalar) (timestamps : list Timestamp)
    (values : list (list scalar)) (geojsons : list (pyobj scalar)) :
  render_features coords timestamps values = Ok geojsons ->
  exists entities,
    iterate coords = Ok entities /\
    length geojsons = length entities /\
    forall i collection,
      nth_error geojsons i = Some collection ->
      exists coord,
        nth_error entities i = Some coord /\
        collection = PyDict [("type", PyStr "FeatureCollection");
                             ("features", PyList (features_of collection))] /\
        length (features_of collection) =
          Nat.min (length values) (length timestamps) /\
        forall t f,
          nth_error (features_of collection) t = Some f ->
          exists time value_list lon lat value,
            nth_error timestamps t = Some time /\
            nth_error values t = Some value_list /\
            subscript coord 1 = Ok lon /\
            subscript coord 0 = Ok lat /\
            getitem value_list (Z.of_nat i) = Ok value /\
            f = PyDict
                  [("type", PyStr "Feature");
                   ("geometry",
                    PyDict [("type", PyStr "Point");
                            ("coordinates", PyList [lon; lat])]);
                   ("properties",
                    PyDict [("value", PyNum value);
                            ("time", PyStr (isoformat time))])].
Proof.
  intros H. destruct (collection_at _ _ _ _ H) as [entities [Hit [Hlen Hat]]].
  exists entities. split; [exact Hit|]. split; [exact Hlen|].
  intros i collection Hi.
  destruct (Hat i collection Hi) as [coord [features [Hc [-> Hfs]]]].
  exists coord.
  change (features_of (PyDict [("type", PyStr "FeatureCollection");
                               ("features", PyList features)]))
    with features.
  split; [exact Hc|]. split; [reflexivity|]. split.
  - apply Forall2_length in Hfs. rewrite <- Hfs, length_zip. apply Nat.min_comm.
  - intros t f Ht.
    destruct (Forall2_nth_error _ _ _ _ _ Hfs Ht) as [[time value_list] [Hz Hf]].
    apply nth_error_zip in Hz. destruct Hz as [Htime Hvl].
    simpl in Hf. apply feature_Ok in Hf.
    destruct Hf as [lon [lat [value [Hlon [Hlat [Hval ->]]]]]].
    exists time, value_list, lon, lat, value. auto 6.
Qed.

(** C3. A successful [render] emits one FeatureCollection per item of the
    extracted [coords], in the order of the items, and each collection has
    [min(len(values), len(timestamps))] Features, the one at position [t]
    carrying the timestamp and the values of step [t]. *)
Theorem one_collection_per_entity (self : GeoPlot)
    (state_trajectory : StateTrajectory) (utcnow : Timestamp)
    (coords : pyobj scalar) (values : list (list scalar))
    (timestamps : list Timestamp) (geojsons : list (pyobj scalar)) :
  render_extract self state_trajectory = Ok (coords, values) ->
  render_geojsons self state_trajectory utcnow = Ok (timestamps, geojsons) ->
  exists entities,
    coords = PyList entities /\
    length geojsons = length entities /\
    forall i collection,
      nth_error geojsons i = Some collection ->
      collection = PyDict [("type", PyStr "FeatureCollection");
                           ("features", PyList (features_of collection))] /\
      length (features_of collection) =
        Nat.min (length values) (length timestamps) /\
      forall t f,
        nth_error (features_of collection) t = Some f ->
        exists time value_list value,
          nth_error timestamps t = Some time /\
          nth_error values t = Some value_list /\
          getitem value_list (Z.of_nat i) = Ok value /\
          property "time" f = Some (PyStr (isoformat time)) /\
          property "value" f = Some (PyNum value).
Proof.
  intros Hx H.
  destruct (render_geojsons_Ok _ _ _ _ _ H) as [coords' [values' [Hx' [Hts Hf]]]].
  rewrite Hx in Hx'. inversion Hx'; subst coords' values'.
  destruct (feature_at _ _ _ _ Hf) as [entities [Hit [Hlen Hat]]].
  exists entities. split.
  - exact (extracted_coords_list _ _ _ _ _ Hx Hit).
  - split; [exact Hlen|].
    intros i collection Hi.
    destruct (Hat i collection Hi) as [coord [_ [Hc [Hn Hfeat]]]].
    split; [exact Hc|]. split; [exact Hn|].
    intros t f Ht.
    destruct (Hfeat t f Ht)
      as [time [value_list [lon [lat [value [H1 [H2 [_ [_ [H5 ->]]]]]]]]]].
    exists time, value_list, value. auto 6.
Qed.

(** C4. In a successful [render], every Feature of the collection at index
    [i] has the geometry coordinates [[coords[i][1], coords[i][0]]]; when
    [coords[i]] is a pair [[x, y]] these are [[y, x]], and exchanging them
    again gives [coords[i]] back. *)
Theorem geometry_swaps_the_pair (self : GeoPlot)
    (state_trajectory : StateTrajectory) (utcnow : Timestamp)
    (coords : pyobj scalar) (values : list (list scalar))
    (timestamps : list Timestamp) (geojsons : list (pyobj scalar)) :
  render_extract self state_trajectory = Ok (coords, values) ->
  render_geojsons self state_trajectory utcnow = Ok (timestamps, geojsons) ->
  forall i collection f,
    nth_error geojsons i = Some collection ->
    In f (features_of collection) ->
    exists entities coord lon lat,
      coords = PyList entities /\
      nth_error entities i = Some coord /\
      subscript coord 1 = Ok lon /\
      subscript coord 0 = Ok lat /\
      geometry_coordinates f = Some (PyList [lon; lat]) /\
      (forall x y, coord = PyList [x; y] ->
         lon = y /\ lat = x /\ swap_pair (PyList [lon; lat]) = Some coord).
Proof.
  intros Hx H i collection f Hi Hin.
  destruct (render_geojsons_Ok _ _ _ _ _ H) as [coords' [values' [Hx' [Hts Hf]]]].
  rewrite Hx in Hx'. inversion Hx'; subst coords' values'.
  destruct (feature_at _ _ _ _ Hf) as [entities [Hit [Hlen Hat]]].
  destruct (Hat i collection Hi) as [coord [Hc [_ [_ Hfeat]]]].
  destruct (In_nth_error _ _ Hin) as [t Ht].
  destruct (Hfeat t f Ht)
    as [time [value_list [lon [lat [value [_ [_ [Hlon [Hlat [_ ->]]]]]]]]]].
  exists entities, coord, lon, lat.
  split; [exact (extracted_coords_list _ _ _ _ _ Hx Hit)|].
  repeat (split; [assumption || reflexivity|]).
  intros x y ->. simpl in Hlon, Hlat.
  change (getitem [x; y] 1) with (Ok y) in Hlon.
  change (getitem [x; y] 0) with (Ok x) in Hlat.
  inversion Hlon; inversion Hlat; subst. auto.
Qed.

(** C10. In a successful [render], the properties of every Feature are a
    dictionary with the keys [value] and [time] and no others, while the
    script of the page takes [feature.properties.id] as the key it groups
    by: that key is undefined for every Feature, so the same for all. *)
Theorem properties_are_value_and_time (self : GeoPlot)
    (state_trajectory : StateTrajectory) (utcnow : Timestamp)
    (timestamps : list Timestamp) (geojsons : list (pyobj scalar)) :
  render_geojsons self state_trajectory utcnow = Ok (timestamps, geojsons) ->
  geoplot_template =
    (fst (around grouping_line geoplot_template) ++ grouping_line ++
     snd (around grouping_line geoplot_template))%string /\
  forall collection f,
    In collection geojsons ->
    In f (features_of collection) ->
    exists entries,
      member f "properties" = Some (PyDict entries) /\
      keys entries = ["value"; "time"] /\
      lookup "id" entries = None /\
      feature_id f = None.
Proof.
  intros H. split; [vm_compute; reflexivity|].
  intros collection f Hc Hin.
  destruct (render_geojsons_Ok _ _ _ _ _ H) as [coords [values [_ [_ Hf]]]].
  destruct (feature_at _ _ _ _ Hf) as [entities [_ [_ Hat]]].
  destruct (In_nth_error _ _ Hc) as [i Hi].
  destruct (Hat i collection Hi) as [coord [_ [_ [_ Hfeat]]]].
  destruct (In_nth_error _ _ Hin) as [t Ht].
  destruct (Hfeat t f Ht)
    as [time [value_list [lon [lat [value [_ [_ [_ [_ [_ ->]]]]]]]]]].
  exists [("value", PyNum value); ("time", PyStr (isoformat time))].
  repeat split.
Qed.

End FeatureClaims.

(** ** The timestamps *)

Lemma nth_error_range_0 (n : Z) (k : nat) :
  (k < Z.to_nat n)%nat -> nth_error (range 0 n) k = Some (Z.of_nat k).
Proof.
  intros H. rewrite range_0, nth_error_map.
  rewrite nth_error_seq.
  replace (k <? Z.to_nat n)%nat with true by (symmetry; apply Nat.ltb_lt; exact H).
  reflexivity.
Qed.


Section TimestampClaim.

Context {ext : Externals}.

Lemma Timestamp_add_Ok (start delta : Z) (t : Timestamp) :
  Timestamp_add start delta = Ok t ->
  t = start + delta /\ representable (start + delta) = true.
Proof.
  unfold Timestamp_add. destruct (representable (start + delta)); intros H.
  - inversion H. auto.
  - discriminate H.
Qed.

Lemma Timedelta_whole_Ok (i z delta : Z) :
  Timedelta_seconds i (Whole z) = Ok delta ->
  delta = i * z * 1000000000 /\ representable (i * z * 1000000000) = true.
Proof.
  unfold Timedelta_seconds.
  destruct (representable (i * z * 1000000000)); intros H.
  - inversion H. auto.
  - discriminate H.
Qed.

(** The timestamps of a successful [render_timestamps], by their index. *)
Lemma render_timestamps_Ok (self : GeoPlot) (utcnow : Timestamp)
    (timestamps : list Timestamp) :
  render_timestamps self utcnow = Ok timestamps ->
  length timestamps =
    Z.to_nat (num_episodes (metadata (config self)) *
              num_steps_per_episode (metadata (config self))) /\
  forall k t,
    nth_error timestamps k = Some t ->
    exists delta,
      Timedelta_seconds (Z.of_nat k) (step_time self) = Ok delta /\
      Timestamp_add utcnow delta = Ok t.
Proof.
  unfold render_timestamps. intros H. apply for_each_Ok in H.
  assert (Hlen : length timestamps =
                 Z.to_nat (num_episodes (metadata (config self)) *
                           num_steps_per_episode (metadata (config self)))).
  { apply Forall2_length in H. rewrite <- H, length_range, Z.sub_0_r.
    reflexivity. }
  split; [exact Hlen|].
  intros k t Hk.
  destruct (Forall2_nth_error _ _ _ _ _ H Hk) as [i [Hi Hb]].
  assert (Hlt : (k < length timestamps)%nat)
    by (apply nth_error_Some; congruence).
  rewrite nth_error_range_0 in Hi by (rewrite <- Hlen; exact Hlt).
  inversion Hi; subst i.
  apply bind_Ok in Hb. destruct Hb as [delta [Hd Ha]].
  exists delta. auto.
Qed.

Lemma nth_error_timestamps (self : GeoPlot) (utcnow : Timestamp)
    (timestamps : list Timestamp) (z : Z) (k : nat) :
  render_timestamps self utcnow = Ok timestamps ->
  step_time self = Whole z ->
  (k < length timestamps)%nat ->
  nth_error timestamps k = Some (utcnow + Z.of_nat k * z * 1000000000) /\
  representable (Z.of_nat k * z * 1000000000) = true /\
  representable (utcnow + Z.of_nat k * z * 1000000000) = true.
Proof.
  intros H Hz Hk.
  destruct (nth_error timestamps k) as [t|] eqn:E;
    [|apply nth_error_None in E; lia].
  destruct (render_timestamps_Ok _ _ _ H) as [_ Hat].
  destruct (Hat k t E) as [delta [Hd Ha]].
  rewrite Hz in Hd. apply Timedelta_whole_Ok in Hd. destruct Hd as [-> Hr].
  apply Timestamp_add_Ok in Ha. destruct Ha as [-> Hr'].
  auto.
Qed.





End TimestampClaim.

(** ** Trajectories without states *)

Section EmptyTrajectory.

Context {ext : Externals}.

(** C6, as the code has it. [render] has no check for an empty
    trajectory.  When no episode has a State: with zero episodes or one
    episode the loop has no turn, nothing is extracted, and [render] goes on
    to build its timestamps and to write its two files with an empty list
    of collections; with two or more episodes [render] raises [IndexError]
    at the first episode and writes no file. *)
Theorem empty_trajectory_is_not_checked (self : GeoPlot)
    (state_trajectory : StateTrajectory) (utcnow : Timestamp) (fs : files) :
  (forall episode, In episode state_trajectory -> episode = []) ->
  ((length state_trajectory <= 1)%nat ->
     render_extract self state_trajectory = Ok (PyList [], []) /\
     render_geojsons self state_trajectory utcnow =
       (timestamps <- render_timestamps self utcnow ;; Ok (timestamps, [])) /\
     render self state_trajectory utcnow fs =
       match render_timestamps self utcnow with
       | Ok timestamps => render_write self timestamps [] fs
       | Raise e => (fs, Raise e)
       end) /\
  ((2 <= length state_trajectory)%nat ->
     render self state_trajectory utcnow fs = (fs, Raise IndexError)).
Proof.
  intros Hempty. split.
  - intros Hlen.
    assert (Hx : render_extract self state_trajectory = Ok (PyList [], [])).
    { unfold render_extract.
      replace (range 0 (Z.of_nat (length state_trajectory) - 1)) with (@nil Z).
      - reflexivity.
      - unfold range.
        replace (Z.to_nat (Z.of_nat (length state_trajectory) - 1 - 0))
          with 0%nat by lia.
        reflexivity. }
    assert (Hg : render_geojsons self state_trajectory utcnow =
                 (timestamps <- render_timestamps self utcnow ;;
                  Ok (timestamps, []))).
    { unfold render_geojsons. rewrite Hx. simpl.
      destruct (render_timestamps self utcnow); reflexivity. }
    split; [exact Hx|]. split; [exact Hg|].
    unfold render. rewrite Hg.
    destruct (render_timestamps self utcnow); reflexivity.
  - intros Hlen.
    destruct state_trajectory as [|episode0 [|episode1 rest]];
      simpl in Hlen; try lia.
    assert (E0 : episode0 = []) by (apply Hempty; left; reflexivity).
    subst episode0.
    unfold render, render_geojsons. rewrite render_extract_over.
    reflexivity.
Qed.

End EmptyTrajectory.

(** ** Values and entities of different counts *)

Lemma getitem_Raise {A : Type} (l : list A) (i : Z) (e : exn) :
  getitem l i = Raise e -> e = IndexError.
Proof.
  unfold getitem.
  destruct ((_ <? 0) || _); [congruence|].
  destruct (nth_error l _); congruence.
Qed.

Lemma getitem_firstn {A : Type} (l : list A) (n i : nat) :
  (i < n)%nat -> getitem (firstn n l) (Z.of_nat i) = getitem l (Z.of_nat i).
Proof.
  intros H. destruct (nth_error l i) as [x|] eqn:E.
  - rewrite (getitem_nat _ _ _ E). apply getitem_nat.
    rewrite nth_error_firstn.
    replace (i <? n)%nat with true by (symmetry; apply Nat.ltb_lt; exact H).
    exact E.
  - apply nth_error_None in E.
    rewrite (getitem_nat_beyond l i E). apply getitem_nat_beyond.
    rewrite length_firstn. lia.
Qed.

Lemma for_each_ext {A B : Type} (f g : A -> result B) (xs : list A) :
  (forall x, In x xs -> f x = g x) -> for_each f xs = for_each g xs.
Proof.
  induction xs as [|x xs IH]; intros H; simpl.
  - reflexivity.
  - rewrite (H x (or_introl eq_refl)), IH; [reflexivity|].
    intros y Hy. apply H. right. exact Hy.
Qed.

Lemma for_each_map {A B C : Type} (f : B -> result C) (g : A -> B) (xs : list A) :
  for_each f (map g xs) = for_each (fun x => f (g x)) xs.
Proof.
  induction xs as [|x xs IH]; simpl; [reflexivity|]. rewrite IH. reflexivity.
Qed.

Lemma zip_map_r {A B C : Type} (g : B -> C) (xs : list A) (ys : list B) :
  zip xs (map g ys) = map (fun p => (fst p, g (snd p))) (zip xs ys).
Proof.
  revert ys. induction xs as [|x xs IH]; intros [|y ys]; simpl; auto.
  rewrite IH. reflexivity.
Qed.

Lemma In_enumerate {A : Type} (xs : list A) (i : Z) (x : A) :
  In (i, x) (enumerate xs) ->
  exists k, i = Z.of_nat k /\ nth_error xs k = Some x.
Proof.
  intros H. apply In_nth_error in H. destruct H as [k Hk].
  unfold enumerate in Hk. rewrite nth_error_enumerate_from in Hk.
  destruct (nth_error xs k) as [y|] eqn:E; simpl in Hk; [|discriminate].
  inversion Hk; subst. exists k. auto.
Qed.

Lemma subscript_pair {A : Type} (o : pyobj A) :
  has_two_items o = true ->
  exists lon lat, subscript o 1 = Ok lon /\ subscript o 0 = Ok lat.
Proof.
  destruct o as [x|s|[|a [|b items]]|entries]; simpl; try discriminate.
  intros _. exists b, a. split.
  - exact (getitem_nat (a :: b :: items) 1 b eq_refl).
  - exact (getitem_nat (a :: b :: items) 0 a eq_refl).
Qed.

Section ValueCounts.

Context {ext : Externals}.

(** With a pair for coordinates, a Feature can only fail at
    [value_list[i]]. *)
Lemma feature_of_pair (coord : pyobj scalar) (i : Z) (time : Timestamp)
    (value_list : list scalar) :
  has_two_items coord = true ->
  (exists value f, getitem value_list i = Ok value /\
                   feature coord i time value_list = Ok f) \/
  (getitem value_list i = Raise IndexError /\
   feature coord i time value_list = Raise IndexError).
Proof.
  intros Hp. destruct (subscript_pair _ Hp) as [lon [lat [Hlon Hlat]]].
  unfold feature. rewrite Hlon, Hlat. simpl.
  destruct (getitem value_list i) as [value|e] eqn:E; simpl.
  - left. eauto.
  - right. rewrite (getitem_Raise _ _ _ E). auto.
Qed.

Lemma feature_firstn (coord : pyobj scalar) (i n : nat) (time : Timestamp)
    (value_list : list scalar) :
  (i < n)%nat ->
  feature coord (Z.of_nat i) time (firstn n value_list) =
  feature coord (Z.of_nat i) time value_list.
Proof.
  intros H. unfold feature. rewrite (getitem_firstn _ _ _ H). reflexivity.
Qed.

(** C7, as the code has it.  [render] does not compare the number of
    flattened values of a step with the number of entities.  With pairs
    for coordinates: a step that is paired with a timestamp and has fewer
    values than there are entities makes [render] raise [IndexError]; the
    values of a step beyond the number of entities change nothing; and
    when every paired step has at least as many values as there are
    entities, the collections are built and nothing is raised. *)
Theorem value_count_is_not_checked (entities : list (pyobj scalar))
    (timestamps : list Timestamp) (values : list (list scalar)) :
  Forall (fun coord => has_two_items coord = true) entities ->
  ((exists t time value_list,
      nth_error (zip timestamps values) t = Some (time, value_list) /\
      (length value_list < length entities)%nat) ->
   render_features (PyList entities) timestamps values = Raise IndexError) /\
  render_features (PyList entities) timestamps
                  (map (firstn (length entities)) values) =
    render_features (PyList entities) timestamps values /\
  ((forall time value_list,
      In (time, value_list) (zip timestamps values) ->
      (length entities <= length value_list)%nat) ->
   exists geojsons,
     render_features (PyList entities) timestamps values = Ok geojsons).
Proof.
  intros Hpairs. rewrite Forall_forall in Hpairs.
  split; [|split].
  - intros [t [time [value_list [Ht Hshort]]]].
    destruct (nth_error entities (length value_list)) as [coord|] eqn:Ec.
    2: { apply nth_error_None in Ec. lia. }
    assert (Hin : In (Z.of_nat (length value_list), coord) (enumerate entities)).
    { apply (nth_error_In _ (length value_list)). unfold enumerate.
      rewrite nth_error_enumerate_from, Ec. reflexivity. }
    assert (Hfail : fails (feature_collection timestamps values
                             (Z.of_nat (length value_list), coord))).
    { simpl.
      assert (Hf : fails (for_each
                  (fun tv => feature coord (Z.of_nat (length value_list))
                                     (fst tv) (snd tv))
                  (zip timestamps values))).
      { apply (for_each_fails _ _ (time, value_list)).
        - apply (nth_error_In _ t). exact Ht.
        - simpl.
          destruct (feature_of_pair coord (Z.of_nat (length value_list)) time
                      value_list (Hpairs _ (nth_error_In _ _ Ec)))
            as [[value [f [Hv _]]]|[_ Hr]].
          + rewrite getitem_nat_beyond in Hv by lia. discriminate Hv.
          + exists IndexError. exact Hr. }
      destruct Hf as [e He]. rewrite He. exists e. reflexivity. }
    destruct (for_each_fails _ _ _ Hin Hfail) as [e He].
    unfold render_features. simpl. rewrite He. f_equal.
    apply for_each_Raise in He. destruct He as [[i coord'] [Hin' He]].
    simpl in He. apply bind_Raise in He.
    destruct He as [He|[fs [_ He]]]; [|discriminate He].
    apply for_each_Raise in He. destruct He as [[time' vl'] [_ He]].
    simpl in He. apply In_enumerate in Hin'. destruct Hin' as [k [-> Hk]].
    destruct (feature_of_pair coord' (Z.of_nat k) time' vl'
                (Hpairs _ (nth_error_In _ _ Hk)))
      as [[value [f [_ Hok]]]|[_ Hr]]; congruence.
  - unfold render_features. simpl.
    apply for_each_ext. intros [i coord] Hin.
    apply In_enumerate in Hin. destruct Hin as [k [-> Hk]].
    simpl. rewrite zip_map_r, for_each_map. simpl.
    assert (Hlt : (k < length entities)%nat)
      by (apply nth_error_Some; congruence).
    rewrite (for_each_ext _
               (fun tv => feature coord (Z.of_nat k) (fst tv) (snd tv))).
    + reflexivity.
    + intros [time vl] _. simpl. apply feature_firstn. exact Hlt.
  - intros Hlong. unfold render_features. simpl.
    apply for_each_total. intros [i coord] Hin.
    apply In_enumerate in Hin. destruct Hin as [k [-> Hk]].
    simpl.
    destruct (for_each_total
                (fun tv => feature coord (Z.of_nat k) (fst tv) (snd tv))
                (zip timestamps values)) as [fs Hfs].
    + intros [time vl] Hin. simpl.
      destruct (feature_of_pair coord (Z.of_nat k) time vl
                  (Hpairs _ (nth_error_In _ _ Hk)))
        as [[value [f [_ Hok]]]|[Hr _]].
      * exists f. exact Hok.
      * assert (Hlt : (k < length entities)%nat)
          by (apply nth_error_Some; congruence).
        specialize (Hlong time vl Hin).
        destruct (nth_error vl k) as [x|] eqn:Ex.
        -- rewrite (getitem_nat _ _ _ Ex) in Hr. discriminate Hr.
        -- apply nth_error_None in Ex. lia.
    + rewrite Hfs. simpl. eauto.
Qed.

End ValueCounts.

(** ** The page *)

Lemma append_assoc (a b c : string) :
  ((a ++ b) ++ c = a ++ (b ++ c))%string.
Proof.
  induction a as [|x a IH]; simpl; [reflexivity|]. rewrite IH. reflexivity.
Qed.


Lemma template_around_alpha :
  geoplot_template =
  (before_token ++ token_assignment "$accessToken" ++
   between_token_and_alpha ++ alpha_statement "$visualType" ++
   after_alpha)%string.
Proof. vm_compute. reflexivity. Qed.


(** The template filled in, with any five values, around line 52. *)
Lemma page_around_alpha (token start stop data visualType : string) :
  let mapping := [("accessToken", token); ("startTime", start);
                  ("stopTime", stop); ("data", data);
                  ("visualType", visualType)] in
  substitute after_alpha mapping = Ok (text_of (substitute after_alpha mapping)) /\
  substitute geoplot_template mapping =
  Ok (before_token ++ token_assignment token ++
      between_token_and_alpha ++ alpha_statement visualType ++
      text_of (substitute after_alpha mapping))%string.
Proof.
  intros mapping. split.
  - vm_compute. reflexivity.
  - unfold token_assignment, alpha_statement. rewrite !append_assoc.
    vm_compute. reflexivity.
Qed.

(** The template is its eight texts with the placeholders between them,
    no text has a [$], and the page is the same texts with the values in
    the places of the placeholders. *)
Lemma template_shape :
  geoplot_template = interleave template_texts placeholders /\
  existsb has_dollar template_texts = false.
Proof. vm_compute. repeat split. Qed.

Lemma page_shape (token start stop data visualType : string) :
  substitute geoplot_template
    [("accessToken", token); ("startTime", start); ("stopTime", stop);
     ("data", data); ("visualType", visualType)] =
  Ok (interleave template_texts
        [token; visualType; visualType; visualType; data; start; stop]).
Proof. vm_compute. reflexivity. Qed.

Lemma getitem_ends {A : Type} (l : list A) :
  l <> [] -> exists first last, getitem l 0 = Ok first /\ getitem l (-1) = Ok last.
Proof.
  intros H. destruct (exists_last H) as [l' [y E]].
  destruct l as [|x l]; [contradiction|].
  exists x, y. split.
  - exact (getitem_nat (x :: l) 0 x eq_refl).
  - rewrite E. apply getitem_last.
Qed.

Lemma strip_prefix_app (prefix text : string) :
  strip_prefix prefix (prefix ++ text)%string = Some text.
Proof.
  induction prefix as [|c prefix IH]; simpl.
  - destruct text; reflexivity.
  - rewrite Ascii.eqb_refl. exact IH.
Qed.

(** A literal of plain characters is read back as it was written. *)
Lemma js_string_literal_plain (s rest : string) :
  plain s = true ->
  js_string_literal (s ++ String "'" rest)%string = Some (s, rest).
Proof.
  induction s as [|c s IH]; simpl; intros H.
  - reflexivity.
  - apply andb_true_iff in H. destruct H as [Hc Hs].
    unfold plain_char in Hc. apply negb_true_iff in Hc.
    apply orb_false_iff in Hc. destruct Hc as [Hc _].
    apply orb_false_iff in Hc. destruct Hc as [Hc Hcr].
    apply orb_false_iff in Hc. destruct Hc as [Hc Hlf].
    apply orb_false_iff in Hc. destruct Hc as [Hq Hb].
    rewrite Hq, Hlf, Hcr, Hb. simpl. rewrite (IH Hs). reflexivity.
Qed.

Lemma alpha_test_plain (visualType : string) :
  plain visualType = true ->
  alpha_test (alpha_statement visualType) =
  Some (String.eqb visualType "size").
Proof.
  intros H. unfold alpha_test, alpha_statement.
  rewrite strip_prefix_app.
  change ("' == 'size' ? 0.2 : color1.alpha + factor * (color2.alpha - color1.alpha);")
    with (String "'" " == 'size' ? 0.2 : color1.alpha + factor * (color2.alpha - color1.alpha);").
  rewrite (js_string_literal_plain _ _ H). reflexivity.
Qed.

Section PageClaims.

Context {ext : Externals}.


(** C8, as the code has it.  Whenever there is a timestamp, the page is
    the template with the visualization type in each of the three places of
    [$visualType], character for character; line 52 is one of them.  When
    the type has no quote, backslash, line break or [<], the test of that
    line is true exactly when the type is [size]: the alpha of
    [interpolateColor] is then the number [0.2], and for any other such
    type it is [color1.alpha + factor * (color2.alpha - color1.alpha)]. *)
Theorem alpha_follows_visual_type (self : GeoPlot)
    (timestamps : list Timestamp) (geojsons : list (pyobj scalar)) :
  timestamps <> [] ->
  exists html first last tail,
    render_page self timestamps geojsons = Ok html /\
    getitem timestamps 0 = Ok first /\
    getitem timestamps (-1) = Ok last /\
    substitute after_alpha (page_mapping self first last geojsons) = Ok tail /\
    geoplot_template =
      (before_token ++ token_assignment "$accessToken" ++
       between_token_and_alpha ++ alpha_statement "$visualType" ++
       after_alpha)%string /\
    html = (before_token ++ token_assignment (cesium_token self) ++
            between_token_and_alpha ++
            alpha_statement (visualization_type self) ++ tail)%string /\
    html = interleave template_texts
             [cesium_token self; visualization_type self;
              visualization_type self; visualization_type self;
              json_dumps (PyList geojsons); isoformat first; isoformat last] /\
    (plain (visualization_type self) = true ->
     alpha_test (alpha_statement (visualization_type self)) =
       Some (String.eqb (visualization_type self) "size") /\
     forall (number : Type) (add sub mul : number -> number -> number)
            (n_0_2 : number) (color1 color2 : Color number) (factor : number),
       option_map (@alpha number)
         (page_interpolateColor add sub mul n_0_2 (visualization_type self)
                                color1 color2 factor) =
       Some (if String.eqb (visualization_type self) "size" then n_0_2
             else lerp add sub mul (alpha color1) (alpha color2) factor)).
Proof.
  intros Hts. destruct (getitem_ends _ Hts) as [first [last [Hfirst Hlast]]].
  destruct (page_around_alpha (cesium_token self) (isoformat first)
              (isoformat last) (json_dumps (PyList geojsons))
              (visualization_type self)) as [Htail Hpage].
  eexists _, first, last, _.
  split.
  { unfold render_page. rewrite Hfirst, Hlast. simpl. exact Hpage. }
  split; [exact Hfirst|]. split; [exact Hlast|].
  split; [exact Htail|]. split; [exact template_around_alpha|].
  split; [reflexivity|].
  split.
  { pose proof (page_shape (cesium_token self) (isoformat first)
                  (isoformat last) (json_dumps (PyList geojsons))
                  (visualization_type self)) as Hshape.
    rewrite Hpage in Hshape. exact (f_equal text_of Hshape). }
  intros Hplain. split; [exact (alpha_test_plain _ Hplain)|].
  intros number add sub mul n_0_2 color1 color2 factor.
  unfold page_interpolateColor. rewrite (alpha_test_plain _ Hplain).
  simpl. reflexivity.
Qed.

End PageClaims.

(** ** The run of three episodes *)

Lemma scenario_timestamps {ext : Externals} (utcnow : Timestamp) :
  render_timestamps Scenario.plot utcnow =
  if representable utcnow && representable (utcnow + 120000000000)
  then Ok (Scenario.timestamps3 utcnow)
  else Raise OutOfBoundsDatetime.
Proof.
  unfold render_timestamps.
  change (step_time Scenario.plot) with (Whole 60).
  change (range 0 _) with [0; 1; 2].
  cbv beta iota delta [for_each].
  change (Timedelta_seconds 0 (Whole 60)) with (@Ok Z 0).
  change (Timedelta_seconds 1 (Whole 60)) with (@Ok Z 60000000000).
  change (Timedelta_seconds 2 (Whole 60)) with (@Ok Z 120000000000).
  cbv beta iota delta [bind Timestamp_add]. rewrite Z.add_0_r.
  unfold Scenario.timestamps3, representable, ns_max.
  repeat match goal with
         | |- context [?a <=? ?b] => destruct (Z.leb_spec a b)
         end; simpl; try reflexivity; lia.
Qed.

(** C1. Three episodes of one state each, coordinates
    [[10.0, 20.0], [30.0, 40.0]] then [[11.0, 21.0], [31.0, 41.0]], values
    [1, 2] then [3, 4], whatever the third state holds; [step_time] 60,
    3 episodes of 1 step: when the start time and the time 120 seconds
    after it can be held, [render] builds three timestamps and two
    collections of two Features each, which it writes to the GeoJSON file
    when the two files can be written; both Features of the first
    collection have the coordinates [[21.0, 11.0]], and their values are
    1 then 3.  (When one of the two times cannot be held, [render] raises
    [OutOfBoundsDatetime] and writes nothing.) *)
Theorem three_episode_run (iso : Timestamp -> string)
    (dumps dump_indent : pyobj Scenario.number -> string)
    (can_write : string -> bool) (state2 : Scenario.snapshot)
    (utcnow : Timestamp) :
  let ext := Scenario.externals_with iso dumps dump_indent can_write in
  let in_range :=
    representable utcnow && representable (utcnow + 120000000000) in
  @render_extract ext Scenario.plot (Scenario.trajectory state2) =
    Ok (Scenario.coords1, Scenario.values01) /\
  @render_geojsons ext Scenario.plot (Scenario.trajectory state2) utcnow =
    (if in_range
     then Ok (Scenario.timestamps3 utcnow, Scenario.geojsons2 iso utcnow)
     else Raise OutOfBoundsDatetime) /\
  (in_range = true ->
   can_write "simulation.geojson" = true ->
   can_write "simulation.html" = true ->
   forall fs,
     snd (@render ext Scenario.plot (Scenario.trajectory state2) utcnow fs) =
       Ok tt /\
     read_file "simulation.geojson"
       (fst (@render ext Scenario.plot (Scenario.trajectory state2) utcnow fs)) =
       Some (dump_indent (PyList (Scenario.geojsons2 iso utcnow)))) /\
  (in_range = false ->
   forall fs,
     @render ext Scenario.plot (Scenario.trajectory state2) utcnow fs =
       (fs, Raise OutOfBoundsDatetime)) /\
  exists first second,
    Scenario.geojsons2 iso utcnow = [first; second] /\
    length (features_of first) = 2%nat /\
    length (features_of second) = 2%nat /\
    map geometry_coordinates (features_of first) =
      [Some (PyList [PyNum (Scenario.Float 21 0); PyNum (Scenario.Float 11 0)]);
       Some (PyList [PyNum (Scenario.Float 21 0); PyNum (Scenario.Float 11 0)])] /\
    map (property "value") (features_of first) =
      [Some (PyNum (Scenario.Int 1)); Some (PyNum (Scenario.Int 3))].
Proof.
  intros ext in_range.
  assert (Hx : @render_extract ext Scenario.plot (Scenario.trajectory state2) =
               Ok (Scenario.coords1, Scenario.values01)) by reflexivity.
  assert (Hg : @render_geojsons ext Scenario.plot (Scenario.trajectory state2)
                 utcnow =
               (if in_range
                then Ok (Scenario.timestamps3 utcnow,
                         Scenario.geojsons2 iso utcnow)
                else Raise OutOfBoundsDatetime)).
  { unfold render_geojsons.
    rewrite (@scenario_timestamps ext utcnow), Hx. fold in_range.
    destruct in_range; reflexivity. }
  split; [exact Hx|]. split; [exact Hg|]. split; [|split].
  - intros Hr Hw1 Hw2 fs. unfold render. rewrite Hg, Hr.
    unfold render_write.
    change (name (metadata (config Scenario.plot))) with "simulation".
    change (@writable ext) with can_write.
    change ("simulation" ++ ".geojson")%string with "simulation.geojson".
    change ("simulation" ++ ".html")%string with "simulation.html".
    rewrite Hw1, Hw2. simpl negb. cbv iota.
    change (@json_dump_indent ext)
      with (fun o : pyobj Scenario.number => (dump_indent o, @None exn)).
    cbv beta iota delta [fst snd].
    unfold render_page.
    change (getitem (Scenario.timestamps3 utcnow) 0) with (Ok utcnow).
    change (getitem (Scenario.timestamps3 utcnow) (-1))
      with (Ok (utcnow + 120000000000)).
    cbv beta iota delta [bind]. unfold page_mapping. rewrite page_shape.
    split; reflexivity.
  - intros Hr fs. unfold render. rewrite Hg, Hr. reflexivity.
  - eexists _, _. split; [reflexivity|]. repeat split.
Qed.

(** ** Runs that contradict the specification *)

(** C6, as the specification has it, fails: a trajectory with no episode
    has no State, and [render] raises nothing; it writes both files, the
    GeoJSON file holding an empty list. *)
Lemma render_accepts_no_episodes :
  (forall episode, In episode (@nil (list Scenario.snapshot)) -> episode = []) /\
  @render_geojsons Scenario.externals Scenario.plot [] 0 =
    Ok (Scenario.timestamps3 0, []) /\
  snd (@render Scenario.externals Scenario.plot [] 0 []) = Ok tt /\
  read_file "simulation.geojson"
            (fst (@render Scenario.externals Scenario.plot [] 0 [])) = Some "[]" /\
  snd (@render Scenario.externals Scenario.plot [[]] 0 []) = Ok tt.
Proof.
  split; [intros episode []|].
  vm_compute. repeat split.
Qed.

(** C7, as the specification has it, fails: the one visited state has
    four flattened values for two entities, and [render] raises nothing;
    each entity gets the value at its index. *)
Lemma four_values_for_two_entities :
  @render_extract Scenario.externals Scenario.plot
     [[Scenario.state_matrix]; [Scenario.state0]] =
    Ok (Scenario.coords0,
        [[Scenario.Int 1; Scenario.Int 2; Scenario.Int 3; Scenario.Int 4]]) /\
  @render_geojsons Scenario.externals Scenario.plot
     [[Scenario.state_matrix]; [Scenario.state0]] 0 =
    Ok (Scenario.timestamps3 0,
        Scenario.geojsons_matrix Scenario.placeholder_isoformat 0) /\
  snd (@render Scenario.externals Scenario.plot
         [[Scenario.state_matrix]; [Scenario.state0]] 0 []) = Ok tt.
Proof. vm_compute. repeat split. Qed.


(** C8, as the specification has it, fails: the visualization type
    [\size] is not the string [size], the page has it in line 52 as it
    is, and the script reads the literal ['\size'] as [size], so the test
    is true and the alpha is the number [0.2]. *)
Lemma backslash_size_is_read_as_size :
  "\size" <> "size" /\
  (exists tail,
     @render_page Scenario.externals (Scenario.plot_with "\size") [0] [] =
     Ok (before_token ++ token_assignment "token" ++
         between_token_and_alpha ++ alpha_statement "\size" ++ tail)%string) /\
  alpha_test (alpha_statement "\size") = Some true.
Proof.
  split; [discriminate|]. split.
  - destruct (page_around_alpha "token"
                (Scenario.placeholder_isoformat 0)
                (Scenario.placeholder_isoformat 0)
                (Scenario.placeholder_dumps (PyList []))
                "\size") as [_ H].
    eexists. exact H.
  - reflexivity.
Qed.

(** With the type [\size] the alpha of [interpolateColor] is the number
    [0.2], whatever the colors and the factor. *)
Lemma backslash_size_alpha (number : Type)
    (add sub mul : number -> number -> number) (n_0_2 : number)
    (color1 color2 : Color number) (factor : number) :
  option_map (@alpha number)
    (page_interpolateColor add sub mul n_0_2 "\size" color1 color2 factor) =
  Some n_0_2.
Proof. reflexivity. Qed.

(** ** The theorems at concrete inputs *)

Lemma three_episode_run_files :
  representable 0 && representable (0 + 120000000000) = true /\
  snd (@render Scenario.externals Scenario.plot
         (Scenario.trajectory Scenario.unreadable) 0 []) = Ok tt /\
  read_file "simulation.geojson"
    (fst (@render Scenario.externals Scenario.plot
            (Scenario.trajectory Scenario.unreadable) 0 [])) =
    Some "[2 items]".
Proof.
  destruct (three_episode_run Scenario.placeholder_isoformat
              Scenario.placeholder_dumps Scenario.placeholder_dumps
              (fun _ => true) Scenario.unreadable 0) as [_ [_ [Hfiles _]]].
  split; [reflexivity|].
  exact (Hfiles eq_refl eq_refl eq_refl []).
Defined.

Lemma extraction_visits_all_but_last_run :
  (2 <= length [[Scenario.state1; Scenario.state_matrix];
                [Scenario.state0; Scenario.state1];
                [Scenario.unreadable]])%nat /\
  @render_extract Scenario.externals Scenario.plot
     [[Scenario.state1; Scenario.state_matrix];
      [Scenario.state0; Scenario.state1];
      [Scenario.unreadable]] =
    Ok (Scenario.coords1,
        [[Scenario.Int 1; Scenario.Int 2; Scenario.Int 3; Scenario.Int 4];
         [Scenario.Int 3; Scenario.Int 4]]) /\
  (exists earlier,
     nth_error [[Scenario.state1; Scenario.state_matrix];
                [Scenario.state0; Scenario.state1];
                [Scenario.unreadable]] 1 =
       Some (earlier ++ [Scenario.state1]) /\
     @read_var Scenario.externals Scenario.state1 "agents/position" =
       Ok (Array [Scenario.pair 11 21; Scenario.pair 31 41])) /\
  (forall other : list (list Scenario.snapshot),
     Forall2 (fun episode episode' =>
                exists earlier earlier' state,
                  episode = earlier ++ [state] /\
                  episode' = earlier' ++ [state])
             [[Scenario.state1; Scenario.state_matrix];
              [Scenario.state0; Scenario.state1]]
             (removelast other) ->
     @render_extract Scenario.externals Scenario.plot other =
       Ok (Scenario.coords1,
           [[Scenario.Int 1; Scenario.Int 2; Scenario.Int 3; Scenario.Int 4];
            [Scenario.Int 3; Scenario.Int 4]])).
Proof.
  assert (H1 : (2 <= length [[Scenario.state1; Scenario.state_matrix];
                             [Scenario.state0; Scenario.state1];
                             [Scenario.unreadable]])%nat)
    by (simpl; lia).
  assert (H2 : @render_extract Scenario.externals Scenario.plot
                 [[Scenario.state1; Scenario.state_matrix];
                  [Scenario.state0; Scenario.state1];
                  [Scenario.unreadable]] =
               Ok (Scenario.coords1,
                   [[Scenario.Int 1; Scenario.Int 2;
                     Scenario.Int 3; Scenario.Int 4];
                    [Scenario.Int 3; Scenario.Int 4]])) by reflexivity.
  destruct (@extraction_visits_all_but_last Scenario.externals Scenario.plot
              _ _ _ H1 H2)
    as [_ [_ [_ [Hother _]]]].
  split; [exact H1|]. split; [exact H2|]. split.
  - exists [Scenario.state0]. split; reflexivity.
  - exact Hother.
Defined.

Lemma one_collection_per_entity_run :
  @render_extract Scenario.externals Scenario.plot
     (Scenario.trajectory Scenario.unreadable) =
    Ok (Scenario.coords1, Scenario.values01) /\
  @render_geojsons Scenario.externals Scenario.plot
     (Scenario.trajectory Scenario.unreadable) 0 =
    Ok (Scenario.timestamps3 0,
        Scenario.geojsons2 Scenario.placeholder_isoformat 0) /\
  exists entities,
    Scenario.coords1 = PyList entities /\
    length (Scenario.geojsons2 Scenario.placeholder_isoformat 0) =
      length entities.
Proof.
  assert (H1 : @render_extract Scenario.externals Scenario.plot
                 (Scenario.trajectory Scenario.unreadable) =
               Ok (Scenario.coords1, Scenario.values01)) by reflexivity.
  assert (H2 : @render_geojsons Scenario.externals Scenario.plot
                 (Scenario.trajectory Scenario.unreadable) 0 =
               Ok (Scenario.timestamps3 0,
                   Scenario.geojsons2 Scenario.placeholder_isoformat 0))
    by reflexivity.
  destruct (@one_collection_per_entity Scenario.externals Scenario.plot
              (Scenario.trajectory Scenario.unreadable) 0
              Scenario.coords1 Scenario.values01 _ _ H1 H2)
    as [entities [Hc [Hlen _]]].
  split; [exact H1|]. split; [exact H2|].
  exists entities. split; [exact Hc | exact Hlen].
Defined.

Lemma geometry_swaps_the_pair_run :
  @render_extract Scenario.externals Scenario.plot
     (Scenario.trajectory Scenario.unreadable) =
    Ok (Scenario.coords1, Scenario.values01) /\
  @render_geojsons Scenario.externals Scenario.plot
     (Scenario.trajectory Scenario.unreadable) 0 =
    Ok (Scenario.timestamps3 0,
        Scenario.geojsons2 Scenario.placeholder_isoformat 0) /\
  forall collection f,
    nth_error (Scenario.geojsons2 Scenario.placeholder_isoformat 0) 0 =
      Some collection ->
    In f (features_of collection) ->
    exists entities coord lon lat,
      Scenario.coords1 = PyList entities /\
      nth_error entities 0 = Some coord /\
      subscript coord 1 = Ok lon /\
      subscript coord 0 = Ok lat /\
      geometry_coordinates f = Some (PyList [lon; lat]) /\
      (forall x y, coord = PyList [x; y] ->
         lon = y /\ lat = x /\ swap_pair (PyList [lon; lat]) = Some coord).
Proof.
  assert (H1 : @render_extract Scenario.externals Scenario.plot
                 (Scenario.trajectory Scenario.unreadable) =
               Ok (Scenario.coords1, Scenario.values01)) by reflexivity.
  assert (H2 : @render_geojsons Scenario.externals Scenario.plot
                 (Scenario.trajectory Scenario.unreadable) 0 =
               Ok (Scenario.timestamps3 0,
                   Scenario.geojsons2 Scenario.placeholder_isoformat 0))
    by reflexivity.
  split; [exact H1|]. split; [exact H2|].
  intros collection f.
  exact (@geometry_swaps_the_pair Scenario.externals Scenario.plot
           (Scenario.trajectory Scenario.unreadable) 0
           Scenario.coords1 Scenario.values01 _ _ H1 H2 0%nat collection f).
Defined.

Lemma properties_are_value_and_time_run :
  @render_geojsons Scenario.externals Scenario.plot
     (Scenario.trajectory Scenario.unreadable) 0 =
    Ok (Scenario.timestamps3 0,
        Scenario.geojsons2 Scenario.placeholder_isoformat 0) /\
  forall collection f,
    In collection (Scenario.geojsons2 Scenario.placeholder_isoformat 0) ->
    In f (features_of collection) ->
    exists entries,
      member f "properties" = Some (PyDict entries) /\
      keys entries = ["value"; "time"] /\
      lookup "id" entries = None /\
      feature_id f = None.
Proof.
  assert (H : @render_geojsons Scenario.externals Scenario.plot
                (Scenario.trajectory Scenario.unreadable) 0 =
              Ok (Scenario.timestamps3 0,
                  Scenario.geojsons2 Scenario.placeholder_isoformat 0))
    by reflexivity.
  split; [exact H|].
  exact (proj2 (@properties_are_value_and_time Scenario.externals Scenario.plot
                  (Scenario.trajectory Scenario.unreadable) 0 _ _ H)).
Defined.


Lemma empty_trajectory_is_not_checked_run :
  (forall episode : @Episode Scenario.externals,
     In episode [[]; []] -> episode = []) /\
  @render Scenario.externals Scenario.plot [[]; []] 0 [] = ([], Raise IndexError).
Proof.
  assert (H : forall episode : @Episode Scenario.externals,
            In episode [[]; []] -> episode = []).
  { intros episode [E|[E|[]]]; symmetry; exact E. }
  split; [exact H|].
  destruct (@empty_trajectory_is_not_checked Scenario.externals Scenario.plot
              [[]; []] 0 [] H) as [_ Hraise].
  apply Hraise. simpl. lia.
Defined.

Lemma value_count_is_not_checked_run :
  Forall (fun coord : pyobj Scenario.number => has_two_items coord = true)
         [PyList [PyNum (Scenario.Float 10 0); PyNum (Scenario.Float 20 0)];
          PyList [PyNum (Scenario.Float 30 0); PyNum (Scenario.Float 40 0)]] /\
  @render_features Scenario.externals Scenario.coords0 [0; 60000000000]
     [[Scenario.Int 1; Scenario.Int 2]; [Scenario.Int 3]] = Raise IndexError.
Proof.
  assert (H : Forall (fun coord : pyobj Scenario.number => has_two_items coord = true)
         [PyList [PyNum (Scenario.Float 10 0); PyNum (Scenario.Float 20 0)];
          PyList [PyNum (Scenario.Float 30 0); PyNum (Scenario.Float 40 0)]]).
  { repeat constructor. }
  split; [exact H|].
  destruct (@value_count_is_not_checked Scenario.externals _ [0; 60000000000]
              [[Scenario.Int 1; Scenario.Int 2]; [Scenario.Int 3]] H)
    as [Hshort _].
  apply Hshort.
  exists 1%nat, 60000000000, [Scenario.Int 3].
  split; [reflexivity | simpl; lia].
Defined.


Lemma alpha_follows_visual_type_run :
  [0] <> @nil Timestamp /\
  exists tail,
    @render_page Scenario.externals (Scenario.plot_with "size") [0] [] =
      Ok (before_token ++ token_assignment "token" ++
          between_token_and_alpha ++ alpha_statement "size" ++ tail)%string /\
    alpha_test (alpha_statement "size") = Some true.
Proof.
  assert (H : [0] <> @nil Timestamp) by discriminate.
  split; [exact H|].
  destruct (@alpha_follows_visual_type Scenario.externals
              (Scenario.plot_with "size") [0] [] H)
    as [html [first [last [tail [Hp [_ [_ [_ [_ [Hh [_ Hs]]]]]]]]]]].
  exists tail. split.
  - rewrite Hp, Hh. reflexivity.
  - apply Hs. reflexivity.
Defined.

(** * Properties of the rest of the file *)

(** ** Paths *)

Lemma split_slash_not_nil (var : string) : split_slash var <> [].
Proof.
  destruct var as [|c rest]; simpl; [discriminate|].
  destruct (Ascii.eqb c "/"); [discriminate|].
  destruct (split_slash rest); discriminate.
Qed.

Lemma concat_cons (sep piece : string) (pieces : list string) :
  pieces <> [] ->
  String.concat sep (piece :: pieces) =
  (piece ++ sep ++ String.concat sep pieces)%string.
Proof. destruct pieces; [contradiction | reflexivity]. Qed.

Lemma split_slash_plain (piece : string) :
  has_slash piece = false -> split_slash piece = [piece].
Proof.
  induction piece as [|c piece IH]; simpl; intros H; [reflexivity|].
  apply orb_false_iff in H. destruct H as [Hc Hp].
  rewrite Hc, (IH Hp). reflexivity.
Qed.

Lemma split_slash_app (piece rest : string) :
  has_slash piece = false ->
  split_slash (piece ++ String "/" rest)%string = piece :: split_slash rest.
Proof.
  induction piece as [|c piece IH]; simpl; intros H; [reflexivity|].
  apply orb_false_iff in H. destruct H as [Hc Hp].
  rewrite Hc, (IH Hp). reflexivity.
Qed.

(** X1. [read_var] cuts its path at every slash and nowhere else: the
    pieces have no slash, there is one more piece than there are slashes
    (so an empty path gives one empty key, and a doubled slash an empty
    key), joining the pieces with slashes gives the path back, and every
    non-empty list of pieces without slashes is the list of keys of the
    path that joins them. *)
Theorem path_pieces_round_trip (var : string) :
  String.concat "/" (split_slash var) = var /\
  Forall (fun piece => has_slash piece = false) (split_slash var) /\
  length (split_slash var) = S (count_slash var) /\
  (forall pieces,
     pieces <> [] ->
     Forall (fun piece => has_slash piece = false) pieces ->
     split_slash (String.concat "/" pieces) = pieces).
Proof.
  split; [|split; [|split]].
  - induction var as [|c rest IH]; [reflexivity|]. simpl.
    destruct (Ascii.eqb c "/") eqn:Ec.
    + apply Ascii.eqb_eq in Ec. subst c.
      rewrite concat_cons by apply split_slash_not_nil.
      rewrite IH. reflexivity.
    + destruct (split_slash rest) as [|piece pieces] eqn:Es.
      * exfalso. exact (split_slash_not_nil rest Es).
      * destruct pieces as [|piece' pieces'].
        -- simpl in *. rewrite IH. reflexivity.
        -- rewrite concat_cons by discriminate.
           rewrite concat_cons in IH by discriminate.
           rewrite <- IH. reflexivity.
  - induction var as [|c rest IH]; simpl.
    + constructor; [reflexivity | constructor].
    + destruct (Ascii.eqb c "/") eqn:Ec.
      * constructor; [reflexivity | exact IH].
      * destruct (split_slash rest) as [|piece pieces].
        -- constructor; [simpl; rewrite Ec; reflexivity | constructor].
        -- inversion IH as [|? ? Hp Hps]; subst.
           constructor; [simpl; rewrite Ec, Hp; reflexivity | exact Hps].
  - induction var as [|c rest IH]; [reflexivity|]. simpl.
    destruct (Ascii.eqb c "/").
    + simpl. rewrite IH. reflexivity.
    + destruct (split_slash rest) as [|piece pieces] eqn:Es.
      * exfalso. exact (split_slash_not_nil rest Es).
      * exact IH.
  - intros pieces Hne Hall.
    induction pieces as [|piece pieces IH]; [contradiction|].
    inversion Hall as [|? ? Hp Hps]; subst.
    destruct pieces as [|piece' pieces'].
    + simpl. apply split_slash_plain. exact Hp.
    + rewrite concat_cons by discriminate.
      change ("/" ++ String.concat "/" (piece' :: pieces'))%string
        with (String "/" (String.concat "/" (piece' :: pieces'))).
      rewrite (split_slash_app _ _ Hp), IH; [reflexivity | discriminate | exact Hps].
Qed.

(** ** Matrices of values *)

Lemma flatten_row {A : Type} (row : list A) :
  flatten (Array (map Scalar row)) = row.
Proof.
  simpl. induction row as [|x row IH]; simpl; [reflexivity|].
  rewrite IH. reflexivity.
Qed.

Lemma flatten_matrix {A : Type} (rows : list (list A)) :
  flatten (matrix rows) = List.concat rows.
Proof.
  unfold matrix. simpl. induction rows as [|row rows IH]; simpl; [reflexivity|].
  rewrite IH. f_equal. exact (flatten_row row).
Qed.

Lemma nth_error_concat_rows {A : Type} (rows : list (list A)) (m r c : nat)
    (row : list A) :
  Forall (fun row => length row = m) rows ->
  nth_error rows r = Some row ->
  (c < m)%nat ->
  nth_error (List.concat rows) (r * m + c) = nth_error row c.
Proof.
  revert r. induction rows as [|row0 rows IH]; intros r Hall Hr Hc.
  - destruct r; discriminate Hr.
  - inversion Hall as [|? ? Hlen Hrest]; subst. simpl.
    destruct r as [|r]; simpl in Hr.
    + inversion Hr; subst. simpl. apply nth_error_app1. lia.
    + rewrite nth_error_app2 by (simpl; lia).
      replace (S r * length row0 + c - length row0)%nat
        with (r * length row0 + c)%nat by (simpl; lia).
      apply IH; assumption.
Qed.

Lemma length_concat_rows {A : Type} (rows : list (list A)) (m : nat) :
  Forall (fun row => length row = m) rows ->
  length (List.concat rows) = (length rows * m)%nat.
Proof.
  induction 1 as [|row rows Hlen _ IH]; simpl; [reflexivity|].
  rewrite length_app, IH, Hlen. reflexivity.
Qed.

(** X7. The flattened values of a matrix with rows of [m] values are its
    entries row after row: the entry of row [r] and column [c] is at the
    index [r * m + c].  The value [value_list[i]] that line 218 gives to
    entity [i] is therefore the entry of row [i / m] and column [i mod m],
    which for [m > 1] is not a value of row [i]. *)
Theorem flatten_is_row_major {A : Type} (rows : list (list A)) (m r c : nat)
    (row : list A) :
  Forall (fun row => length row = m) rows ->
  nth_error rows r = Some row ->
  (c < m)%nat ->
  length (flatten (matrix rows)) = (length rows * m)%nat /\
  nth_error (flatten (matrix rows)) (r * m + c) = nth_error row c /\
  getitem (flatten (matrix rows)) (Z.of_nat (r * m + c)) =
    getitem row (Z.of_nat c).
Proof.
  intros Hall Hr Hc. rewrite flatten_matrix.
  assert (Hn : nth_error (List.concat rows) (r * m + c) = nth_error row c)
    by (apply nth_error_concat_rows; assumption).
  split; [apply length_concat_rows; exact Hall|]. split; [exact Hn|].
  destruct (nth_error row c) as [x|] eqn:Ex.
  - rewrite (getitem_nat _ _ _ Hn), (getitem_nat _ _ _ Ex). reflexivity.
  - apply nth_error_None in Ex.
    assert (length row = m).
    { rewrite Forall_forall in Hall. apply Hall.
      exact (nth_error_In _ _ Hr). }
    lia.
Qed.

(** ** The files *)

Lemma paths_differ (stem : string) :
  String.eqb (stem ++ ".html") (stem ++ ".geojson") = false.
Proof.
  induction stem as [|c stem IH]; [reflexivity|].
  simpl. rewrite Ascii.eqb_refl. exact IH.
Qed.

Lemma read_file_written (path content : string) (fs : files) :
  read_file path (write_file path content fs) = Some content.
Proof. unfold read_file, write_file. simpl. rewrite String.eqb_refl. reflexivity. Qed.

Lemma read_file_other (path other content : string) (fs : files) :
  String.eqb other path = false ->
  read_file path (write_file other content fs) = read_file path fs.
Proof. intros H. unfold read_file, write_file. simpl. rewrite H. reflexivity. Qed.

Lemma getitem_minus_1 {A : Type} (l : list A) (x : A) :
  nth_error l (length l - 1) = Some x -> getitem l (-1) = Ok x.
Proof.
  intros H. destruct l as [|y l]; [discriminate H|].
  destruct (@exists_last _ (y :: l)) as [l' [z E]]; [discriminate|].
  rewrite E in *. rewrite length_app in H. simpl in H.
  rewrite nth_error_app2 in H by lia.
  replace (length l' + 1 - 1 - length l')%nat with 0%nat in H by lia.
  simpl in H. inversion H; subst. apply getitem_last.
Qed.

Section Files.

Context {ext : Externals}.

Lemma render_timestamps_nil (self : GeoPlot) (utcnow : Timestamp) :
  timestamp_count self <= 0 -> render_timestamps self utcnow = Ok [].
Proof.
  intros H. unfold render_timestamps, range.
  fold (timestamp_count self).
  replace (Z.to_nat (timestamp_count self - 0)) with 0%nat by lia.
  reflexivity.
Qed.

Lemma length_timestamps (self : GeoPlot) (utcnow : Timestamp)
    (timestamps : list Timestamp) :
  render_timestamps self utcnow = Ok timestamps ->
  length timestamps = Z.to_nat (timestamp_count self).
Proof.
  intros H. destruct (render_timestamps_Ok _ _ _ H) as [Hlen _]. exact Hlen.
Qed.

(** The first and the last of the timestamps, when there is one. *)
Lemma render_timestamps_ends (self : GeoPlot) (utcnow : Timestamp)
    (timestamps : list Timestamp) :
  render_timestamps self utcnow = Ok timestamps ->
  0 < timestamp_count self ->
  exists first last,
    nth_error timestamps 0 = Some first /\
    nth_error timestamps (Z.to_nat (timestamp_count self - 1)) = Some last /\
    getitem timestamps 0 = Ok first /\
    getitem timestamps (-1) = Ok last.
Proof.
  intros H Hc. pose proof (length_timestamps _ _ _ H) as Hlen.
  destruct (nth_error timestamps 0) as [first|] eqn:E0;
    [|apply nth_error_None in E0; lia].
  destruct (nth_error timestamps (Z.to_nat (timestamp_count self - 1)))
    as [last|] eqn:E1; [|apply nth_error_None in E1; lia].
  exists first, last. split; [reflexivity|]. split; [reflexivity|]. split.
  - exact (getitem_nat _ 0 _ E0).
  - apply getitem_minus_1. rewrite Hlen.
    replace (Z.to_nat (timestamp_count self) - 1)%nat
      with (Z.to_nat (timestamp_count self - 1)) by lia.
    exact E1.
Qed.

(** The page, from the first and the last timestamp. *)
Lemma render_page_Ok (self : GeoPlot) (timestamps : list Timestamp)
    (geojsons : list (pyobj scalar)) (first last : Timestamp) :
  getitem timestamps 0 = Ok first ->
  getitem timestamps (-1) = Ok last ->
  render_page self timestamps geojsons =
  Ok (interleave template_texts
        [cesium_token self; visualization_type self; visualization_type self;
         visualization_type self; json_dumps (PyList geojsons);
         isoformat first; isoformat last]).
Proof.
  intros Hfirst Hlast. unfold render_page. rewrite Hfirst, Hlast.
  simpl bind. unfold page_mapping. apply page_shape.
Qed.

Lemma render_page_nil (self : GeoPlot) (geojsons : list (pyobj scalar)) :
  render_page self [] geojsons = Raise IndexError.
Proof. reflexivity. Qed.

(** The stages of [render_geojsons], put together. *)
Lemma render_geojsons_stages (self : GeoPlot)
    (state_trajectory : StateTrajectory) (utcnow : Timestamp)
    (coords : pyobj scalar) (values : list (list scalar))
    (timestamps : list Timestamp) (geojsons : list (pyobj scalar)) :
  render_extract self state_trajectory = Ok (coords, values) ->
  render_timestamps self utcnow = Ok timestamps ->
  render_features coords timestamps values = Ok geojsons ->
  render_geojsons self state_trajectory utcnow = Ok (timestamps, geojsons).
Proof.
  intros Hx Hts Hf. unfold render_geojsons. rewrite Hx. simpl.
  rewrite Hts. simpl. rewrite Hf. reflexivity.
Qed.

(** The five ways [render_write] can end. *)
Lemma render_write_cases (self : GeoPlot) (timestamps : list Timestamp)
    (geojsons : list (pyobj scalar)) (fs : files) :
  let dumped := json_dump_indent (PyList geojsons) in
  let fs1 := write_file (geodata_path self) (fst dumped) fs in
  let fs2 := write_file (geoplot_path self) EmptyString fs1 in
  (writable (geodata_path self) = false /\
   render_write self timestamps geojsons fs = (fs, Raise OSError)) \/
  (writable (geodata_path self) = true /\
   exists e, snd dumped = Some e /\
             render_write self timestamps geojsons fs = (fs1, Raise e)) \/
  (writable (geodata_path self) = true /\
   snd dumped = None /\
   writable (geoplot_path self) = false /\
   render_write self timestamps geojsons fs = (fs1, Raise OSError)) \/
  (writable (geodata_path self) = true /\
   snd dumped = None /\
   writable (geoplot_path self) = true /\
   exists e, render_page self timestamps geojsons = Raise e /\
             render_write self timestamps geojsons fs = (fs2, Raise e)) \/
  (writable (geodata_path self) = true /\
   snd dumped = None /\
   writable (geoplot_path self) = true /\
   exists html, render_page self timestamps geojsons = Ok html /\
                render_write self timestamps geojsons fs =
                  (write_file (geoplot_path self) html fs2, Ok tt)).
Proof.
  intros dumped fs1 fs2. unfold render_write. cbv zeta.
  fold (geodata_path self). fold (geoplot_path self). fold dumped.
  destruct (writable (geodata_path self)); simpl negb; cbv iota.
  2: { left. split; reflexivity. }
  destruct (snd dumped) as [e|] eqn:Hd.
  { right. left. split; [reflexivity|]. exists e. split; reflexivity. }
  destruct (writable (geoplot_path self)); simpl negb; cbv iota.
  2: { right. right. left. repeat (split; [reflexivity|]). reflexivity. }
  destruct (render_page self timestamps geojsons) as [html|e].
  - right. right. right. right. repeat (split; [reflexivity|]).
    exists html. split; reflexivity.
  - right. right. right. left. repeat (split; [reflexivity|]).
    exists e. split; reflexivity.
Qed.

(** X2. With no timestamp to generate ([num_episodes *
    num_steps_per_episode <= 0]) and an extraction that succeeded, [render]
    writes the GeoJSON file, with one collection without Features for each
    entity, and then raises: the exception of [json.dump] if it has one,
    and otherwise [IndexError] at [timestamps[0]], after it has emptied the
    HTML file. *)
Theorem no_timestamps_leave_partial_files (self : GeoPlot)
    (state_trajectory : StateTrajectory) (utcnow : Timestamp) (fs : files)
    (entities : list (pyobj scalar)) (values : list (list scalar)) :
  timestamp_count self <= 0 ->
  render_extract self state_trajectory = Ok (PyList entities, values) ->
  writable (geodata_path self) = true ->
  writable (geoplot_path self) = true ->
  render self state_trajectory utcnow fs =
  match snd (json_dump_indent
               (PyList (map (fun _ => empty_collection) entities))) with
  | Some e =>
      (write_file (geodata_path self)
         (fst (json_dump_indent
                 (PyList (map (fun _ => empty_collection) entities))))
         fs,
       Raise e)
  | None =>
      (write_file (geoplot_path self) EmptyString
         (write_file (geodata_path self)
            (fst (json_dump_indent
                    (PyList (map (fun _ => empty_collection) entities))))
            fs),
       Raise IndexError)
  end.
Proof.
  intros Hcount Hx Hw1 Hw2.
  assert (Hf : forall k, for_each (feature_collection [] values)
                           (enumerate_from k entities) =
                         Ok (map (fun _ => empty_collection) entities)).
  { clear Hx. induction entities as [|coord entities IH]; intros k; simpl.
    - reflexivity.
    - rewrite IH. reflexivity. }
  assert (Hg : render_geojsons self state_trajectory utcnow =
               Ok ([], map (fun _ => empty_collection) entities)).
  { apply (render_geojsons_stages _ _ _ _ _ _ _ Hx
             (render_timestamps_nil _ _ Hcount)).
    unfold render_features. simpl iterate. simpl bind.
    unfold enumerate. apply Hf. }
  unfold render. rewrite Hg.
  destruct (render_write_cases self []
              (map (fun _ => empty_collection) entities) fs)
    as [[H _]|[[_ [e [Hd Hr]]]|[[_ [_ [H _]]]|[[_ [Hd [_ [e [He Hr]]]]]
                                              |[_ [_ [_ [html [Hp _]]]]]]]]].
  - congruence.
  - rewrite Hd. exact Hr.
  - congruence.
  - rewrite Hd. rewrite render_page_nil in He. inversion He; subst. exact Hr.
  - rewrite render_page_nil in Hp. discriminate Hp.
Qed.


(** X4. Whatever the outcome, [render] changes no file but the two it
    names after the simulation. *)
Theorem render_writes_its_two_files_only (self : GeoPlot)
    (state_trajectory : StateTrajectory) (utcnow : Timestamp) (fs : files)
    (path : string) :
  path <> geodata_path self ->
  path <> geoplot_path self ->
  read_file path (fst (render self state_trajectory utcnow fs)) =
  read_file path fs.
Proof.
  intros H1 H2.
  assert (E1 : String.eqb (geodata_path self) path = false)
    by (apply String.eqb_neq; congruence).
  assert (E2 : String.eqb (geoplot_path self) path = false)
    by (apply String.eqb_neq; congruence).
  unfold render.
  destruct (render_geojsons self state_trajectory utcnow)
    as [[timestamps geojsons]|e]; [|reflexivity].
  destruct (render_write_cases self timestamps geojsons fs)
    as [[_ Hr]|[[_ [e [_ Hr]]]|[[_ [_ [_ Hr]]]
       |[[_ [_ [_ [e [_ Hr]]]]]|[_ [_ [_ [html [_ Hr]]]]]]]]];
    rewrite Hr; simpl fst;
    rewrite ?(read_file_other _ _ _ _ E2), ?(read_file_other _ _ _ _ E1);
    reflexivity.
Qed.

(** X8. After a [render] that returned normally, the GeoJSON file holds
    the printed list of collections, and the HTML file holds the template
    with the token, the visualization type (three times), the printed
    list, and as start and stop times the first and the last generated
    timestamp, however many Features there are: with an integer
    [step_time], the start of the run and [count - 1] steps later. *)
Theorem files_of_a_successful_render (self : GeoPlot)
    (state_trajectory : StateTrajectory) (utcnow : Timestamp) (fs fs' : files) :
  render self state_trajectory utcnow fs = (fs', Ok tt) ->
  exists timestamps geojsons first last,
    render_timestamps self utcnow = Ok timestamps /\
    render_geojsons self state_trajectory utcnow = Ok (timestamps, geojsons) /\
    snd (json_dump_indent (PyList geojsons)) = None /\
    read_file (geodata_path self) fs' =
      Some (fst (json_dump_indent (PyList geojsons))) /\
    nth_error timestamps 0 = Some first /\
    nth_error timestamps (Z.to_nat (timestamp_count self - 1)) = Some last /\
    read_file (geoplot_path self) fs' =
      Some (interleave template_texts
              [cesium_token self; visualization_type self;
               visualization_type self; visualization_type self;
               json_dumps (PyList geojsons); isoformat first;
               isoformat last]) /\
    (forall z, step_time self = Whole z ->
       first = utcnow /\
       last = utcnow + (timestamp_count self - 1) * z * 1000000000) /\
    (forall mantissa exponent,
       step_time self = Fractional mantissa exponent ->
       exists ns0 ns1,
         Timedelta_of_float 0 mantissa exponent = Ok ns0 /\
         first = utcnow + ns0 /\
         Timedelta_of_float (timestamp_count self - 1) mantissa exponent =
           Ok ns1 /\
         last = utcnow + ns1).
Proof.
  unfold render.
  destruct (render_geojsons self state_trajectory utcnow)
    as [[timestamps geojsons]|e] eqn:Hg; [|discriminate].
  destruct (render_geojsons_Ok _ _ _ _ _ Hg) as [_ [_ [_ [Hts _]]]].
  intros H.
  destruct (render_write_cases self timestamps geojsons fs)
    as [[_ Hr]|[[_ [e [_ Hr]]]|[[_ [_ [_ Hr]]]
       |[[_ [_ [_ [e [_ Hr]]]]]|[_ [Hd [_ [html [Hp Hr]]]]]]]]];
    rewrite Hr in H; try discriminate H.
  injection H as <-.
  destruct (Z_lt_le_dec 0 (timestamp_count self)) as [Hc|Hc].
  2: { rewrite (render_timestamps_nil _ utcnow Hc) in Hts.
       inversion Hts; subst timestamps.
       rewrite render_page_nil in Hp. discriminate Hp. }
  destruct (render_timestamps_ends _ _ _ Hts Hc)
    as [first [last [E0 [E1 [Hfirst Hlast]]]]].
  rewrite (render_page_Ok _ _ _ _ _ Hfirst Hlast) in Hp.
  apply (f_equal text_of) in Hp. simpl in Hp. subst html.
  pose proof (length_timestamps _ _ _ Hts) as Hlen.
  exists timestamps, geojsons, first, last.
  split; [exact Hts|]. split; [reflexivity|]. split; [exact Hd|].
  split.
  { rewrite !read_file_other by apply paths_differ.
    apply read_file_written. }
  split; [exact E0|]. split; [exact E1|].
  split; [apply read_file_written|].
  split.
  - intros z Hz.
    destruct (nth_error_timestamps _ _ _ _ 0 Hts Hz) as [H0 _]; [lia|].
    destruct (nth_error_timestamps _ _ _ _
                (Z.to_nat (timestamp_count self - 1)) Hts Hz) as [H1 _]; [lia|].
    rewrite E0 in H0. rewrite E1 in H1.
    apply (f_equal (fun o => match o with Some t => t | None => 0 end))
      in H0, H1.
    rewrite Z2Nat.id in H1 by lia.
    split; [rewrite H0; simpl; lia | exact H1].
  - intros mantissa exponent Hm.
    destruct (render_timestamps_Ok _ _ _ Hts) as [_ Hat].
    destruct (Hat _ _ E0) as [ns0 [Hd0 Ha0]].
    destruct (Hat _ _ E1) as [ns1 [Hd1 Ha1]].
    rewrite Hm in Hd0, Hd1. simpl in Hd0, Hd1.
    rewrite Z2Nat.id in Hd1 by lia.
    apply Timestamp_add_Ok in Ha0, Ha1.
    exists ns0, ns1. split; [exact Hd0|]. split; [apply Ha0|].
    split; [exact Hd1 | apply Ha1].
Qed.

(** X12. A trajectory of a single episode is never read: whatever its
    states hold, [render] does what it does for the trajectory without
    episodes, and builds no collection. *)
Theorem single_episode_is_never_read (self : GeoPlot)
    (state_trajectory : StateTrajectory) (utcnow : Timestamp) (fs : files) :
  (length state_trajectory <= 1)%nat ->
  render_geojsons self state_trajectory utcnow =
    (timestamps <- render_timestamps self utcnow ;; Ok (timestamps, [])) /\
  render self state_trajectory utcnow fs = render self [] utcnow fs.
Proof.
  intros Hlen.
  assert (Hx : render_extract self state_trajectory = Ok (PyList [], [])).
  { rewrite render_extract_over.
    destruct state_trajectory as [|episode [|episode' rest]];
      simpl in Hlen; try lia; reflexivity. }
  assert (Hg : forall trajectory : StateTrajectory,
            render_extract self trajectory = Ok (PyList [], []) ->
            render_geojsons self trajectory utcnow =
            (timestamps <- render_timestamps self utcnow ;;
             Ok (timestamps, []))).
  { intros trajectory H. unfold render_geojsons. rewrite H. simpl.
    destruct (render_timestamps self utcnow); reflexivity. }
  split; [exact (Hg _ Hx)|].
  unfold render. rewrite (Hg _ Hx), (Hg [] eq_refl). reflexivity.
Qed.

End Files.

(** ** Episodes that cannot be read *)

Section Episodes.

Context {ext : Externals}.

Variable self : GeoPlot.

(** One more episode at the front of the extraction. *)
Lemma extract_over_cons (episode : Episode) (episodes : list Episode)
    (acc : pyobj scalar * list (list scalar)) :
  extract_over self (map final_state_of (episode :: episodes)) acc =
  (read <- read_episode self episode ;;
   extract_over self (map final_state_of episodes)
     (tolist (fst read), snd acc ++ [flatten (snd read)])).
Proof.
  simpl. unfold read_episode.
  destruct (final_state_of episode) as [state|e]; simpl; [|reflexivity].
  destruct (read_array state (entity_position self)) as [position|e]; simpl;
    [|reflexivity].
  destruct (read_array state (entity_property self)) as [property|e]; simpl;
    reflexivity.
Qed.

Lemma extract_over_readable (episodes : list Episode)
    (acc : pyobj scalar * list (list scalar)) :
  (exists outcome, extract_over self (map final_state_of episodes) acc = Ok outcome)
  <-> Forall (fun episode => exists read, read_episode self episode = Ok read)
             episodes.
Proof.
  revert acc. induction episodes as [|episode episodes IH]; intros acc.
  - simpl. split; [constructor | eauto].
  - rewrite extract_over_cons. split.
    + intros [outcome H]. apply bind_Ok in H. destruct H as [read [Hr H]].
      constructor; [eauto|].
      apply (proj1 (IH (tolist (fst read), snd acc ++ [flatten (snd read)]))).
      eauto.
    + intros H. inversion H as [|? ? [read Hr] Hrest]; subst.
      rewrite Hr. simpl.
      apply (proj2 (IH (tolist (fst read), snd acc ++ [flatten (snd read)]))).
      exact Hrest.
Qed.

Lemma extract_over_first_failure (front : list Episode) (episode : Episode)
    (rest : list Episode) (acc : pyobj scalar * list (list scalar)) (e : exn) :
  Forall (fun earlier => exists read, read_episode self earlier = Ok read) front ->
  read_episode self episode = Raise e ->
  extract_over self (map final_state_of (front ++ episode :: rest)) acc = Raise e.
Proof.
  revert acc. induction front as [|earlier front IH]; intros acc Hfront He.
  - simpl app. rewrite extract_over_cons, He. reflexivity.
  - inversion Hfront as [|? ? [read Hr] Hrest]; subst.
    change ((earlier :: front) ++ episode :: rest)
      with (earlier :: (front ++ episode :: rest)).
    rewrite extract_over_cons, Hr. simpl. apply IH; assumption.
Qed.

(** An episode has no last state only when it has no state. *)
Lemma final_state_of_Raise (episode : Episode) (e : exn) :
  final_state_of episode = Raise e -> episode = [] /\ e = IndexError.
Proof.
  destruct episode as [|s episode].
  - unfold final_state_of. rewrite getitem_nil. intros H. inversion H. auto.
  - destruct (@exists_last _ (s :: episode)) as [earlier [y E]]; [discriminate|].
    rewrite E, final_state_of_last. discriminate.
Qed.

(** [np.array(read_var(state, var))] raises what [read_var] raises, or
    [ValueError] on ragged data. *)
Lemma read_array_Raise (state : State) (var : string) (e : exn) :
  read_array state var = Raise e ->
  read_var state var = Raise e \/
  exists data,
    read_var state var = Ok data /\ shape data = None /\ e = ValueError.
Proof.
  unfold read_array, np_array.
  destruct (read_var state var) as [data|e']; simpl.
  - destruct (shape data) eqn:E; intros H; [discriminate H|].
    inversion H. right. exists data. auto.
  - intros H. left. exact H.
Qed.

Lemma read_array_shaped (state : State) (var : string) (data : ndarray scalar) :
  read_var state var = Ok data ->
  shape data <> None ->
  read_array state var = Ok (astype (common_type (flatten data)) data).
Proof.
  intros Hd Hs. unfold read_array, np_array. rewrite Hd. simpl.
  destruct (shape data); [reflexivity | contradiction].
Qed.

(** X5. The first episode that cannot be read decides: when the episodes
    before it can be read and it is not the last episode, [render] raises
    the exception of that episode and writes no file, whatever the later
    episodes hold.  The exception is [IndexError] for an episode without
    states; otherwise it is, for the last state of the episode, the
    exception of the coordinate path, or [ValueError] for ragged
    coordinates, or else the exception of the value path, or [ValueError]
    for ragged values. *)
Theorem first_unreadable_episode_decides (front : list Episode)
    (episode : Episode) (rest : list Episode) (utcnow : Timestamp)
    (fs : files) (e : exn) :
  rest <> [] ->
  (forall earlier, In earlier front ->
     exists read, read_episode self earlier = Ok read) ->
  read_episode self episode = Raise e ->
  render self (front ++ episode :: rest) utcnow fs = (fs, Raise e) /\
  ((episode = [] /\ e = IndexError) \/
   exists earlier state,
     episode = earlier ++ [state] /\
     (read_var state (entity_position self) = Raise e \/
      (exists data,
         read_var state (entity_position self) = Ok data /\
         shape data = None /\ e = ValueError) \/
      (exists data,
         read_var state (entity_position self) = Ok data /\
         shape data <> None /\
         (read_var state (entity_property self) = Raise e \/
          exists data',
            read_var state (entity_property self) = Ok data' /\
            shape data' = None /\ e = ValueError)))).
Proof.
  intros Hrest Hfront He.
  assert (Hx : render_extract self (front ++ episode :: rest) = Raise e).
  { rewrite render_extract_over.
    rewrite removelast_app by discriminate.
    assert (Hr : removelast (episode :: rest) = episode :: removelast rest).
    { destruct rest; [contradiction | reflexivity]. }
    rewrite Hr. apply extract_over_first_failure; [|exact He].
    apply Forall_forall. exact Hfront. }
  split.
  { unfold render, render_geojsons. rewrite Hx. reflexivity. }
  unfold read_episode in He.
  destruct (final_state_of episode) as [state|e'] eqn:Efin.
  2: { left. simpl in He. inversion He; subst e'.
       exact (final_state_of_Raise _ _ Efin). }
  right. destruct (final_state_of_Ok _ _ Efin) as [earlier ->].
  exists earlier, state. split; [reflexivity|].
  simpl in He.
  destruct (read_array state (entity_position self)) as [position|e'] eqn:Epos.
  2: { simpl in He. inversion He; subst e'.
       destruct (read_array_Raise _ _ _ Epos) as [H|H]; [left; exact H|].
       right. left. exact H. }
  destruct (read_array_Ok _ _ _ Epos) as [data [Hd [Hs _]]].
  right. right. exists data. split; [exact Hd|]. split; [exact Hs|].
  simpl in He.
  destruct (read_array state (entity_property self)) as [property|e'] eqn:Eprop;
    simpl in He; [discriminate He|].
  inversion He; subst e'. exact (read_array_Raise _ _ _ Eprop).
Qed.

(** X11. The extraction succeeds exactly when every episode but the last
    has a last state in which both paths resolve to data that is not
    ragged. *)
Theorem extraction_succeeds_exactly_when (state_trajectory : StateTrajectory) :
  (exists coords values,
     render_extract self state_trajectory = Ok (coords, values)) <->
  (forall episode, In episode (removelast state_trajectory) ->
     exists earlier state position property,
       episode = earlier ++ [state] /\
       read_var state (entity_position self) = Ok position /\
       shape position <> None /\
       read_var state (entity_property self) = Ok property /\
       shape property <> None).
Proof.
  rewrite render_extract_over. split.
  - intros [coords [values H]] episode Hin.
    assert (Hall : Forall (fun episode => exists read,
                             read_episode self episode = Ok read)
                          (removelast state_trajectory)).
    { apply (proj1 (extract_over_readable _ (PyList [], []))). eauto. }
    rewrite Forall_forall in Hall. destruct (Hall episode Hin) as [read Hr].
    unfold read_episode in Hr.
    apply bind_Ok in Hr. destruct Hr as [state [Hs Hr]].
    apply bind_Ok in Hr. destruct Hr as [position [Hp Hr]].
    apply bind_Ok in Hr. destruct Hr as [property [Hq _]].
    destruct (final_state_of_Ok _ _ Hs) as [earlier ->].
    destruct (read_array_Ok _ _ _ Hp) as [data [Hd [Hsh _]]].
    destruct (read_array_Ok _ _ _ Hq) as [data' [Hd' [Hsh' _]]].
    exists earlier, state, data, data'. auto 6.
  - intros H.
    assert (Hall : Forall (fun episode => exists read,
                             read_episode self episode = Ok read)
                          (removelast state_trajectory)).
    { apply Forall_forall. intros episode Hin.
      destruct (H episode Hin)
        as [earlier [state [position [property [-> [Hp [Hsp [Hq Hsq]]]]]]]].
      eexists. unfold read_episode.
      rewrite final_state_of_last. simpl.
      rewrite (read_array_shaped _ _ _ Hp Hsp). simpl.
      rewrite (read_array_shaped _ _ _ Hq Hsq). reflexivity. }
    apply (proj2 (extract_over_readable _ (PyList [], []))) in Hall.
    destruct Hall as [[coords values] Hok]. eauto.
Qed.

(** A successful extraction over two or more episodes has values. *)
Lemma extracted_values_not_nil (state_trajectory : StateTrajectory)
    (coords : pyobj scalar) (values : list (list scalar)) :
  (2 <= length state_trajectory)%nat ->
  render_extract self state_trajectory = Ok (coords, values) ->
  values <> [].
Proof.
  intros Hlen H. rewrite render_extract_over in H.
  destruct (extract_over_Ok _ _ _ _ _ H) as [visits [Hf [_ [Hv _]]]].
  simpl in Hv. intros ->.
  assert (Hn : length (map final_state_of (removelast state_trajectory)) =
               length visits) by (rewrite Hf, length_map; reflexivity).
  rewrite length_map, length_removelast_minus in Hn.
  destruct visits; [simpl in Hn; lia | discriminate Hv].
Qed.

(** X6. Three shapes of extracted coordinates make [render] raise once
    the timestamps are built, with no file written: a single number (a 0-d
    array) raises [TypeError] at the loop over [coords]; with two or more
    episodes and a timestamp to generate, a first item that is a number
    raises [TypeError] at [coord[1]], and a first item with fewer than two
    items raises [IndexError] there. *)
Theorem malformed_coordinates_raise (state_trajectory : StateTrajectory)
    (utcnow : Timestamp) (fs : files) (coords : pyobj scalar)
    (values : list (list scalar)) (timestamps : list Timestamp) :
  render_extract self state_trajectory = Ok (coords, values) ->
  render_timestamps self utcnow = Ok timestamps ->
  (forall x, coords = PyNum x ->
     render self state_trajectory utcnow fs = (fs, Raise TypeError)) /\
  ((2 <= length state_trajectory)%nat ->
   0 < timestamp_count self ->
   (forall x rest, coords = PyList (PyNum x :: rest) ->
      render self state_trajectory utcnow fs = (fs, Raise TypeError)) /\
   (forall items rest, coords = PyList (PyList items :: rest) ->
      (length items < 2)%nat ->
      render self state_trajectory utcnow fs = (fs, Raise IndexError))).
Proof.
  intros Hx Hts. split.
  - intros x ->. unfold render, render_geojsons. rewrite Hx. simpl.
    rewrite Hts. reflexivity.
  - intros Hlen Hcount.
    assert (Hv := extracted_values_not_nil _ _ _ Hlen Hx).
    destruct values as [|value_list values]; [contradiction|].
    pose proof (length_timestamps _ _ _ Hts) as Hn.
    destruct timestamps as [|time timestamps]; [simpl in Hn; lia|].
    split.
    + intros x rest ->. unfold render, render_geojsons.
      rewrite Hx. simpl. rewrite Hts. reflexivity.
    + intros items rest -> Hitems. unfold render, render_geojsons.
      rewrite Hx. simpl. rewrite Hts.
      destruct items as [|a [|b items]]; [reflexivity | reflexivity |].
      simpl in Hitems. lia.
Qed.

End Episodes.

(** ** The Features of one collection *)

Section Places.

Context {ext : Externals}.

(** X13. In a successful [render] every collection is a
    [FeatureCollection] of [Feature]s with [Point] geometries, and all
    Features of one collection have the same coordinates: an entity stays
    where the last extracted coordinates put it, at every timestamp. *)
Theorem features_are_points_at_one_place (self : GeoPlot)
    (state_trajectory : StateTrajectory) (utcnow : Timestamp)
    (timestamps : list Timestamp) (geojsons : list (pyobj scalar)) :
  render_geojsons self state_trajectory utcnow = Ok (timestamps, geojsons) ->
  forall collection,
    In collection geojsons ->
    member collection "type" = Some (PyStr "FeatureCollection") /\
    forall f g,
      In f (features_of collection) ->
      In g (features_of collection) ->
      member f "type" = Some (PyStr "Feature") /\
      (exists geometry,
         member f "geometry" = Some geometry /\
         member geometry "type" = Some (PyStr "Point")) /\
      geometry_coordinates f = geometry_coordinates g.
Proof.
  intros H collection Hc.
  destruct (render_geojsons_Ok _ _ _ _ _ H) as [coords [values [_ [_ Hf]]]].
  destruct (feature_at _ _ _ _ Hf) as [entities [_ [_ Hat]]].
  destruct (In_nth_error _ _ Hc) as [i Hi].
  destruct (Hat i collection Hi) as [coord [_ [Hshape [_ Hfeat]]]].
  split; [rewrite Hshape; reflexivity|].
  intros f g Hf' Hg'.
  destruct (In_nth_error _ _ Hf') as [t Ht].
  destruct (In_nth_error _ _ Hg') as [u Hu].
  destruct (Hfeat t f Ht)
    as [time [vl [lon [lat [value [_ [_ [Hlon [Hlat [_ ->]]]]]]]]]].
  destruct (Hfeat u g Hu)
    as [time' [vl' [lon' [lat' [value' [_ [_ [Hlon' [Hlat' [_ ->]]]]]]]]]].
  split; [reflexivity|]. split.
  - eexists. split; reflexivity.
  - assert (lon = lon') by congruence. assert (lat = lat') by congruence.
    subst. reflexivity.
Qed.

End Places.

(** ** The time series of the script *)

Section Series.

Context {ext : Externals}.

Variable julian : Type.
Variable fromIso8601 : option (pyobj scalar) -> result julian.
Variable number : Type.
Variables infinity neg_infinity : number.
Variables math_min math_max : number -> option (pyobj scalar) -> number.
Variable same_key : option (pyobj scalar) -> option (pyobj scalar) -> bool.

Lemma process_built_feature (timestamps : list Timestamp) (f : pyobj scalar)
    (acc : series_data scalar julian number) :
  (forall time, In time timestamps ->
     exists j, fromIso8601 (Some (PyStr (isoformat time))) = Ok j) ->
  built timestamps f ->
  exists s,
    taken julian fromIso8601 f s /\
    process_feature scalar julian fromIso8601 number math_min math_max
                    same_key acc f =
    Ok {| timeSeriesMap := push_sample scalar julian same_key None s
                             (timeSeriesMap acc);
          minValue := math_min (minValue acc) (property "value" f);
          maxValue := math_max (maxValue acc) (property "value" f) |}.
Proof.
  intros Hparse [lon [lat [value [time [Hin ->]]]]].
  destruct (Hparse time Hin) as [j Hj].
  exists {| sample_time := j;
            sample_value := Some (PyNum value);
            sample_coordinates := Some (PyList [lon; lat]) |}.
  split.
  - unfold taken. simpl. repeat split.
    change (property "time" _) with (Some (@PyStr scalar (isoformat time))).
    exact Hj.
  - unfold process_feature.
    change (member _ "properties")
      with (Some (PyDict [("value", PyNum value);
                          ("time", @PyStr scalar (isoformat time))])).
    cbv beta iota.
    change (member _ "time") with (Some (@PyStr scalar (isoformat time))).
    rewrite Hj. reflexivity.
Qed.

Lemma process_features_one_key (timestamps : list Timestamp)
    (features : list (pyobj scalar)) (acc : series_data scalar julian number)
    (before : list (sample scalar julian)) :
  same_key None None = true ->
  (forall time, In time timestamps ->
     exists j, fromIso8601 (Some (PyStr (isoformat time))) = Ok j) ->
  Forall (built timestamps) features ->
  timeSeriesMap acc = [(None, before)] ->
  exists data samples,
    process_features scalar julian fromIso8601 number math_min math_max
                     same_key features acc = Ok data /\
    timeSeriesMap data = [(None, before ++ samples)] /\
    Forall2 (taken julian fromIso8601) features samples.
Proof.
  intros Hkey Hparse. revert acc before.
  induction features as [|f features IH]; intros acc before Hall Hmap.
  - exists acc, []. simpl. rewrite app_nil_r. auto.
  - inversion Hall as [|? ? Hf Hrest]; subst.
    destruct (process_built_feature timestamps f acc Hparse Hf) as [s [Hs Hp]].
    simpl. rewrite Hp. simpl bind.
    destruct (IH {| timeSeriesMap :=
                      push_sample scalar julian same_key None s
                                  (timeSeriesMap acc);
                    minValue := math_min (minValue acc) (property "value" f);
                    maxValue := math_max (maxValue acc) (property "value" f) |}
                 (before ++ [s]) Hrest)
      as [data [samples [Hd [Hm Hsamples]]]].
    { simpl. rewrite Hmap. simpl. rewrite Hkey. reflexivity. }
    exists data, (s :: samples). split; [exact Hd|]. split.
    + rewrite Hm, <- app_assoc. reflexivity.
    + constructor; assumption.
Qed.

(** X9. [processTimeSeriesData] on a collection of a successful [render]:
    when Cesium reads the time strings and [undefined] is the same key as
    [undefined], the map has no key for a collection without Features and
    otherwise the single key [undefined], whose series has one sample per
    Feature, in the order of the Features, with the time, the value and
    the coordinates of its Feature.  The page therefore shows one entity
    for each collection. *)
Theorem one_series_per_collection (self : GeoPlot)
    (state_trajectory : StateTrajectory) (utcnow : Timestamp)
    (timestamps : list Timestamp) (geojsons : list (pyobj scalar)) :
  same_key None None = true ->
  (forall time, In time timestamps ->
     exists j, fromIso8601 (Some (PyStr (isoformat time))) = Ok j) ->
  render_geojsons self state_trajectory utcnow = Ok (timestamps, geojsons) ->
  forall collection,
    In collection geojsons ->
    exists data samples,
      processTimeSeriesData scalar julian fromIso8601 number infinity
        neg_infinity math_min math_max same_key collection = Ok data /\
      timeSeriesMap data =
        match features_of collection with
        | [] => []
        | _ :: _ => [(None, samples)]
        end /\
      Forall2 (taken julian fromIso8601) (features_of collection) samples.
Proof.
  intros Hkey Hparse H collection Hc.
  destruct (render_geojsons_Ok _ _ _ _ _ H) as [coords [values [_ [_ Hf]]]].
  destruct (feature_at _ _ _ _ Hf) as [entities [_ [_ Hat]]].
  destruct (In_nth_error _ _ Hc) as [i Hi].
  destruct (Hat i collection Hi) as [coord [_ [Hshape [_ Hfeat]]]].
  assert (Hall : Forall (built timestamps) (features_of collection)).
  { apply Forall_forall. intros f Hin.
    destruct (In_nth_error _ _ Hin) as [t Ht].
    destruct (Hfeat t f Ht)
      as [time [vl [lon [lat [value [Htime [_ [_ [_ [_ ->]]]]]]]]]].
    exists lon, lat, value, time. split; [|reflexivity].
    exact (nth_error_In _ _ Htime). }
  unfold processTimeSeriesData.
  remember (features_of collection) as collected eqn:Ecollected.
  rewrite Hshape.
  change (member (PyDict [("type", PyStr "FeatureCollection");
                          ("features", PyList collected)])
                 "features")
    with (Some (PyList collected)).
  cbv beta iota.
  clear Ecollected Hshape Hfeat.
  destruct collected as [|f features].
  - eexists _, []. simpl. repeat split. constructor.
  - inversion Hall as [|? ? Hbuilt Hrest]; subst.
    destruct (process_built_feature timestamps f
                {| timeSeriesMap := []; minValue := infinity;
                   maxValue := neg_infinity |} Hparse Hbuilt) as [s [Hs Hp]].
    simpl process_features. rewrite Hp. simpl bind.
    match goal with
    | |- context [process_features _ _ _ _ _ _ _ features ?acc] =>
        destruct (process_features_one_key timestamps features acc [s] Hkey
                    Hparse Hrest eq_refl)
          as [data [samples [Hd [Hm Hsamples]]]]
    end.
    exists data, (s :: samples). split; [exact Hd|]. split; [exact Hm|].
    constructor; assumption.
Qed.

End Series.

(** ** The three tests on the visualization type *)

Lemma template_around_tests :
  geoplot_template =
  (before_token ++ token_assignment "$accessToken" ++
   between_token_and_alpha ++ alpha_statement "$visualType" ++
   between_alpha_and_pixel_size ++ pixel_size_line "$visualType" ++
   between_pixel_size_and_guard ++ sample_guard "$visualType" ++
   after_guard)%string.
Proof. vm_compute. reflexivity. Qed.

Lemma page_around_tests (token start stop data visualType : string) :
  let mapping := [("accessToken", token); ("startTime", start);
                  ("stopTime", stop); ("data", data);
                  ("visualType", visualType)] in
  substitute after_guard mapping = Ok (text_of (substitute after_guard mapping)) /\
  substitute geoplot_template mapping =
  Ok (before_token ++ token_assignment token ++
      between_token_and_alpha ++ alpha_statement visualType ++
      between_alpha_and_pixel_size ++ pixel_size_line visualType ++
      between_pixel_size_and_guard ++ sample_guard visualType ++
      text_of (substitute after_guard mapping))%string.
Proof.
  intros mapping. split.
  - vm_compute. reflexivity.
  - unfold token_assignment, alpha_statement, pixel_size_line, sample_guard.
    rewrite !append_assoc. vm_compute. reflexivity.
Qed.

Lemma size_test_plain (opening closing visualType : string) :
  plain visualType = true ->
  size_test opening closing
            (opening ++ visualType ++ String "'" closing)%string =
  Some (String.eqb visualType "size").
Proof.
  intros H. unfold size_test.
  rewrite strip_prefix_app, (js_string_literal_plain _ _ H), String.eqb_refl.
  reflexivity.
Qed.

Section Tests.

Context {ext : Externals}.

(** X10. The page has the visualization type in the three tests of the
    script, lines 52, 100 and 113, character for character.  For a type
    without quote, backslash, line break or [<] the three tests have the
    same value, true exactly for [size]: the pixel size is a sampled
    property, and is given samples, exactly when the alpha is fixed. *)
Theorem size_mode_is_all_or_nothing (self : GeoPlot)
    (timestamps : list Timestamp) (geojsons : list (pyobj scalar)) :
  timestamps <> [] ->
  exists html tail,
    render_page self timestamps geojsons = Ok html /\
    geoplot_template =
      (before_token ++ token_assignment "$accessToken" ++
       between_token_and_alpha ++ alpha_statement "$visualType" ++
       between_alpha_and_pixel_size ++ pixel_size_line "$visualType" ++
       between_pixel_size_and_guard ++ sample_guard "$visualType" ++
       after_guard)%string /\
    html =
      (before_token ++ token_assignment (cesium_token self) ++
       between_token_and_alpha ++ alpha_statement (visualization_type self) ++
       between_alpha_and_pixel_size ++
       pixel_size_line (visualization_type self) ++
       between_pixel_size_and_guard ++
       sample_guard (visualization_type self) ++ tail)%string /\
    (plain (visualization_type self) = true ->
     alpha_test (alpha_statement (visualization_type self)) =
       Some (String.eqb (visualization_type self) "size") /\
     pixel_size_test (pixel_size_line (visualization_type self)) =
       Some (String.eqb (visualization_type self) "size") /\
     sample_guard_test (sample_guard (visualization_type self)) =
       Some (String.eqb (visualization_type self) "size")).
Proof.
  intros Hts. destruct (getitem_ends _ Hts) as [first [last [Hfirst Hlast]]].
  destruct (page_around_tests (cesium_token self) (isoformat first)
              (isoformat last) (json_dumps (PyList geojsons))
              (visualization_type self)) as [_ Hpage].
  eexists _, _. split.
  { unfold render_page. rewrite Hfirst, Hlast. simpl bind. exact Hpage. }
  split; [exact template_around_tests|]. split; [reflexivity|].
  intros Hplain. split; [exact (alpha_test_plain _ Hplain)|]. split.
  - exact (size_test_plain "pixelSize: '"
             " == 'size' ? new Cesium.SampledProperty(Number) : 10," _ Hplain).
  - exact (size_test_plain "if ('" " == 'size') {" _ Hplain).
Qed.

End Tests.

(** ** The properties of the rest of the file at concrete inputs *)

Lemma path_pieces_round_trip_run :
  ["agents"; ""; "position"] <> [] /\
  Forall (fun piece => has_slash piece = false) ["agents"; ""; "position"] /\
  split_slash "agents//position" = ["agents"; ""; "position"] /\
  String.concat "/" (split_slash "agents//position") = "agents//position".
Proof.
  assert (H1 : ["agents"; ""; "position"] <> []) by discriminate.
  assert (H2 : Forall (fun piece => has_slash piece = false)
                      ["agents"; ""; "position"])
    by (repeat constructor).
  destruct (path_pieces_round_trip "agents//position") as [Hjoin [_ [_ Hsplit]]].
  split; [exact H1|]. split; [exact H2|].
  split; [exact (Hsplit ["agents"; ""; "position"] H1 H2) | exact Hjoin].
Defined.

Lemma flatten_is_row_major_run :
  Forall (fun row : list Z => length row = 2%nat) [[1; 2]; [3; 4]] /\
  nth_error [[1; 2]; [3; 4]] 1 = Some [3; 4] /\
  (0 < 2)%nat /\
  getitem (flatten (matrix [[1; 2]; [3; 4]])) 2 = getitem [3; 4] 0.
Proof.
  assert (H1 : Forall (fun row : list Z => length row = 2%nat) [[1; 2]; [3; 4]])
    by (repeat constructor).
  assert (H2 : nth_error [[1; 2]; [3; 4]] 1 = Some [3; 4]) by reflexivity.
  assert (H3 : (0 < 2)%nat) by (repeat constructor).
  destruct (flatten_is_row_major [[1; 2]; [3; 4]] 2 1 0 [3; 4] H1 H2 H3)
    as [_ [_ Hget]].
  split; [exact H1|]. split; [exact H2|]. split; [exact H3 | exact Hget].
Defined.

Lemma no_timestamps_leave_partial_files_run :
  timestamp_count Shapes.plot_without_steps <= 0 /\
  @render Scenario.externals Shapes.plot_without_steps
     (Scenario.trajectory Scenario.unreadable) 0 [] =
  ([("simulation.html", ""); ("simulation.geojson", "[2 items]")],
   Raise IndexError).
Proof.
  assert (H1 : timestamp_count Shapes.plot_without_steps <= 0)
    by (vm_compute; discriminate).
  split; [exact H1|].
  exact (@no_timestamps_leave_partial_files Scenario.externals
           Shapes.plot_without_steps (Scenario.trajectory Scenario.unreadable)
           0 [] _ Scenario.values01 H1 eq_refl eq_refl eq_refl).
Defined.


Lemma render_writes_its_two_files_only_run :
  "notes.txt" <> geodata_path Scenario.plot /\
  "notes.txt" <> geoplot_path Scenario.plot /\
  read_file "notes.txt"
    (fst (@render Scenario.externals Scenario.plot
            (Scenario.trajectory Scenario.unreadable) 0
            [("notes.txt", "kept")])) = Some "kept".
Proof.
  assert (H1 : "notes.txt" <> geodata_path Scenario.plot) by discriminate.
  assert (H2 : "notes.txt" <> geoplot_path Scenario.plot) by discriminate.
  split; [exact H1|]. split; [exact H2|].
  exact (@render_writes_its_two_files_only Scenario.externals Scenario.plot
           (Scenario.trajectory Scenario.unreadable) 0
           [("notes.txt", "kept")] "notes.txt" H1 H2).
Defined.

Lemma files_of_a_successful_render_run :
  @render Scenario.externals Scenario.plot
     (Scenario.trajectory Scenario.unreadable) 0 [] =
    (fst (@render Scenario.externals Scenario.plot
            (Scenario.trajectory Scenario.unreadable) 0 []), Ok tt) /\
  step_time Scenario.plot = Whole 60 /\
  exists geojsons first last,
    read_file "simulation.geojson"
      (fst (@render Scenario.externals Scenario.plot
              (Scenario.trajectory Scenario.unreadable) 0 [])) =
    Some (Scenario.placeholder_dumps (PyList geojsons)) /\
    read_file "simulation.html"
      (fst (@render Scenario.externals Scenario.plot
              (Scenario.trajectory Scenario.unreadable) 0 [])) =
    Some (interleave template_texts
            ["token"; "color"; "color"; "color";
             Scenario.placeholder_dumps (PyList geojsons);
             Scenario.placeholder_isoformat first;
             Scenario.placeholder_isoformat last]) /\
    first = 0 /\
    last = 0 + (3 - 1) * 60 * 1000000000.
Proof.
  assert (H : @render Scenario.externals Scenario.plot
                (Scenario.trajectory Scenario.unreadable) 0 [] =
              (fst (@render Scenario.externals Scenario.plot
                      (Scenario.trajectory Scenario.unreadable) 0 []), Ok tt))
    by (vm_compute; reflexivity).
  assert (Hz : step_time Scenario.plot = Whole 60) by reflexivity.
  split; [exact H|]. split; [exact Hz|].
  destruct (@files_of_a_successful_render Scenario.externals Scenario.plot
              (Scenario.trajectory Scenario.unreadable) 0 [] _ H)
    as [timestamps [geojsons [first [last
         [_ [_ [_ [Hgeo [_ [_ [Hpage [Hwhole _]]]]]]]]]]]].
  destruct (Hwhole 60 Hz) as [Hfirst Hlast].
  exists geojsons, first, last.
  split; [exact Hgeo|]. split; [exact Hpage|].
  split; [exact Hfirst | exact Hlast].
Defined.

Lemma single_episode_is_never_read_run :
  (length [[Scenario.state0]] <= 1)%nat /\
  @render_geojsons Scenario.externals Scenario.plot [[Scenario.state0]] 0 =
    Ok (Scenario.timestamps3 0, []) /\
  @render Scenario.externals Scenario.plot [[Scenario.state0]] 0 [] =
    @render Scenario.externals Scenario.plot [] 0 [].
Proof.
  assert (H : (length [[Scenario.state0]] <= 1)%nat) by (repeat constructor).
  split; [exact H|].
  exact (@single_episode_is_never_read Scenario.externals Scenario.plot
           [[Scenario.state0]] 0 [] H).
Defined.

Lemma first_unreadable_episode_decides_run :
  [[Scenario.state1]] <> [] /\
  @read_episode Scenario.externals Scenario.plot [Shapes.state_ragged] =
    Raise ValueError /\
  @render Scenario.externals Scenario.plot
     ([[Scenario.state0]] ++ [Shapes.state_ragged] :: [[Scenario.state1]]) 0 [] =
    ([], Raise ValueError) /\
  @render Scenario.externals Scenario.plot
     ([[Scenario.state0]] ++ [Scenario.unreadable] :: [[Scenario.state1]]) 0 [] =
    ([], Raise KeyError).
Proof.
  assert (H1 : [[Scenario.state1]] <> []) by discriminate.
  assert (H2 : forall earlier, In earlier [[Scenario.state0]] ->
            exists read, @read_episode Scenario.externals Scenario.plot earlier =
                         Ok read).
  { intros earlier [<-|[]]. eexists. reflexivity. }
  assert (H3 : @read_episode Scenario.externals Scenario.plot
                 [Shapes.state_ragged] = Raise ValueError) by reflexivity.
  assert (H4 : @read_episode Scenario.externals Scenario.plot
                 [Scenario.unreadable] = Raise KeyError) by reflexivity.
  split; [exact H1|]. split; [exact H3|]. split.
  - exact (proj1 (@first_unreadable_episode_decides Scenario.externals
                    Scenario.plot [[Scenario.state0]] [Shapes.state_ragged]
                    [[Scenario.state1]] 0 [] ValueError H1 H2 H3)).
  - exact (proj1 (@first_unreadable_episode_decides Scenario.externals
                    Scenario.plot [[Scenario.state0]] [Scenario.unreadable]
                    [[Scenario.state1]] 0 [] KeyError H1 H2 H4)).
Defined.

Lemma extraction_succeeds_exactly_when_run :
  (exists coords values,
     @render_extract Scenario.externals Scenario.plot
        [[Scenario.state1; Scenario.state0]; [Scenario.state1];
         [Scenario.unreadable]] = Ok (coords, values)) /\
  ~ (exists coords values,
       @render_extract Scenario.externals Scenario.plot
          [[Scenario.state0]; [Shapes.state_ragged]; [Scenario.state1]] =
       Ok (coords, values)).
Proof.
  split.
  - apply (proj2 (@extraction_succeeds_exactly_when Scenario.externals
                    Scenario.plot
                    [[Scenario.state1; Scenario.state0]; [Scenario.state1];
                     [Scenario.unreadable]])).
    intros episode [<-|[<-|[]]].
    + exists [Scenario.state1]. do 3 eexists.
      split; [reflexivity|]. split; [reflexivity|].
      split; [vm_compute; discriminate|].
      split; [reflexivity | vm_compute; discriminate].
    + exists []. do 3 eexists.
      split; [reflexivity|]. split; [reflexivity|].
      split; [vm_compute; discriminate|].
      split; [reflexivity | vm_compute; discriminate].
  - intros H.
    apply (proj1 (@extraction_succeeds_exactly_when Scenario.externals
                    Scenario.plot
                    [[Scenario.state0]; [Shapes.state_ragged];
                     [Scenario.state1]])) with (episode := [Shapes.state_ragged])
      in H; [|right; left; reflexivity].
    destruct H as [earlier [state [position [property [E [Hp [Hs _]]]]]]].
    apply app_inj_tail_iff with (x := @nil Scenario.snapshot) in E.
    destruct E as [_ <-].
    apply Hs. inversion Hp. reflexivity.
Defined.

Lemma malformed_coordinates_raise_run :
  @render_extract Scenario.externals Scenario.plot
     [[Shapes.state_scalar]; [Scenario.state0]] =
    Ok (PyNum (Scenario.Float 10 0), [[Scenario.Int 1]]) /\
  @render_timestamps Scenario.externals Scenario.plot 0 =
    Ok (Scenario.timestamps3 0) /\
  @render Scenario.externals Scenario.plot
     [[Shapes.state_scalar]; [Scenario.state0]] 0 [] = ([], Raise TypeError) /\
  @render Scenario.externals Scenario.plot
     [[Shapes.state_row]; [Scenario.state0]] 0 [] = ([], Raise TypeError) /\
  @render Scenario.externals Scenario.plot
     [[Shapes.state_column]; [Scenario.state0]] 0 [] = ([], Raise IndexError).
Proof.
  assert (H : @render_extract Scenario.externals Scenario.plot
                [[Shapes.state_scalar]; [Scenario.state0]] =
              Ok (PyNum (Scenario.Float 10 0), [[Scenario.Int 1]]))
    by reflexivity.
  assert (H' : @render_extract Scenario.externals Scenario.plot
                 [[Shapes.state_row]; [Scenario.state0]] =
               Ok (PyList [PyNum (Scenario.Float 10 0);
                           PyNum (Scenario.Float 20 0)],
                   [[Scenario.Int 1; Scenario.Int 2]]))
    by reflexivity.
  assert (H'' : @render_extract Scenario.externals Scenario.plot
                  [[Shapes.state_column]; [Scenario.state0]] =
                Ok (PyList [PyList [PyNum (Scenario.Float 10 0)];
                            PyList [PyNum (Scenario.Float 30 0)]],
                    [[Scenario.Int 1; Scenario.Int 2]]))
    by reflexivity.
  assert (Hts : @render_timestamps Scenario.externals Scenario.plot 0 =
                Ok (Scenario.timestamps3 0)) by reflexivity.
  assert (Hlen : forall a b : list Scenario.snapshot, (2 <= length [a; b])%nat)
    by (intros a b; repeat constructor).
  assert (Hcount : 0 < timestamp_count Scenario.plot) by reflexivity.
  split; [exact H|]. split; [exact Hts|]. split; [|split].
  - exact (proj1 (@malformed_coordinates_raise Scenario.externals Scenario.plot
                    _ 0 [] _ _ _ H Hts) _ eq_refl).
  - destruct (@malformed_coordinates_raise Scenario.externals Scenario.plot
                _ 0 [] _ _ _ H' Hts) as [_ Hitems].
    exact (proj1 (Hitems (Hlen _ _) Hcount) _ _ eq_refl).
  - destruct (@malformed_coordinates_raise Scenario.externals Scenario.plot
                _ 0 [] _ _ _ H'' Hts) as [_ Hitems].
    apply (proj2 (Hitems (Hlen _ _) Hcount) _ _ eq_refl).
    simpl. lia.
Defined.

Lemma features_are_points_at_one_place_run :
  @render_geojsons Scenario.externals Scenario.plot
     (Scenario.trajectory Scenario.unreadable) 0 =
    Ok (Scenario.timestamps3 0,
        Scenario.geojsons2 Scenario.placeholder_isoformat 0) /\
  forall collection,
    In collection (Scenario.geojsons2 Scenario.placeholder_isoformat 0) ->
    member collection "type" = Some (PyStr "FeatureCollection").
Proof.
  assert (H : @render_geojsons Scenario.externals Scenario.plot
                (Scenario.trajectory Scenario.unreadable) 0 =
              Ok (Scenario.timestamps3 0,
                  Scenario.geojsons2 Scenario.placeholder_isoformat 0))
    by reflexivity.
  split; [exact H|].
  intros collection Hin.
  exact (proj1 (@features_are_points_at_one_place Scenario.externals
                  Scenario.plot _ 0 _ _ H collection Hin)).
Defined.

Lemma one_series_per_collection_run :
  Shapes.same_key None None = true /\
  @render_geojsons Scenario.externals Scenario.plot
     (Scenario.trajectory Scenario.unreadable) 0 =
    Ok (Scenario.timestamps3 0,
        Scenario.geojsons2 Scenario.placeholder_isoformat 0) /\
  forall collection,
    In collection (Scenario.geojsons2 Scenario.placeholder_isoformat 0) ->
    exists data samples,
      processTimeSeriesData Scenario.number string Shapes.keep_text unit tt tt
        (fun _ _ => tt) (fun _ _ => tt) Shapes.same_key collection = Ok data /\
      timeSeriesMap data =
        match features_of collection with
        | [] => []
        | _ :: _ => [(None, samples)]
        end.
Proof.
  assert (H1 : Shapes.same_key None None = true) by reflexivity.
  assert (H2 : forall time, In time (Scenario.timestamps3 0) ->
            exists j, Shapes.keep_text
                        (Some (PyStr (Scenario.placeholder_isoformat time))) =
                      Ok j).
  { intros time _. eexists. reflexivity. }
  assert (H3 : @render_geojsons Scenario.externals Scenario.plot
                 (Scenario.trajectory Scenario.unreadable) 0 =
               Ok (Scenario.timestamps3 0,
                   Scenario.geojsons2 Scenario.placeholder_isoformat 0))
    by reflexivity.
  split; [exact H1|]. split; [exact H3|].
  intros collection Hin.
  destruct (@one_series_per_collection Scenario.externals string
              Shapes.keep_text unit tt tt (fun _ _ => tt) (fun _ _ => tt)
              Shapes.same_key Scenario.plot _ 0 _ _ H1 H2 H3 collection Hin)
    as [data [samples [Hd [Hm _]]]].
  exists data, samples. split; [exact Hd | exact Hm].
Defined.

Lemma size_mode_is_all_or_nothing_run :
  [0] <> @nil Timestamp /\
  alpha_test (alpha_statement "color") = Some false /\
  pixel_size_test (pixel_size_line "color") = Some false /\
  sample_guard_test (sample_guard "color") = Some false.
Proof.
  assert (H : [0] <> @nil Timestamp) by discriminate.
  split; [exact H|].
  destruct (@size_mode_is_all_or_nothing Scenario.externals Scenario.plot
              [0] [] H) as [html [tail [_ [_ [_ Htests]]]]].
  exact (Htests eq_refl).
Defined.
